(** * Nexia sensor platform: a shallow embedding of
      [homeassistant/components/nexia/entity.py] and
      [homeassistant/components/nexia/sensor.py].

    Python objects become records, [dict]s become [gmap]s, calls that can
    raise live in a small exception monad, and binary64 floats are the
    axiom-free [spec_float] of the standard library. *)

From Stdlib Require Import ZArith List Bool Lia Ascii.
From Stdlib Require Import Floats.SpecFloat.
From stdpp Require Import base option list strings pretty gmap fin_maps.

Open Scope string_scope.
Open Scope list_scope.
Open Scope Z_scope.

(* ===================================================================== *)
(** ** Python values and exceptions *)
(* ===================================================================== *)

Module Py.

(** The exceptions that the modelled code can meet. *)
Inductive Exc :=
| KeyError
| AttributeError
| TypeError
| OtherError (msg : string).

(** A call either returns or raises. *)
Inductive Result (A : Type) :=
| Ok (a : A)
| Raise (e : Exc).
Arguments Ok {A} a.
Arguments Raise {A} e.

Definition bind {A B} (r : Result A) (k : A -> Result B) : Result B :=
  match r with
  | Ok a => k a
  | Raise e => Raise e
  end.

(** [for x in xs: acc += body(x)], stopping at the first exception. *)
Fixpoint for_extend {A B} (body : A -> Result (list B)) (xs : list A)
  : Result (list B) :=
  match xs with
  | [] => Ok []
  | x :: xs' =>
      bind (body x) (fun ys =>
      bind (for_extend body xs') (fun zs => Ok (ys ++ zs)))
  end.

(** binary64 *)
Definition prec : Z := 53.
Definition emax : Z := 1024.
Definition float := spec_float.

(** Values read from the vendor objects: [None], [bool], [int], [float],
    [str]. *)
Inductive Val :=
| PyNone
| PyBool (b : bool)
| PyInt (z : Z)
| PyFloat (f : float)
| PyStr (s : string).

(** [isinstance(v, float)]; [bool] and [int] are not floats. *)
Definition isinstance_float (v : Val) : bool :=
  match v with
  | PyFloat _ => true
  | _ => false
  end.

(** [bool(v)]: Python truthiness. *)
Definition truthy (v : Val) : bool :=
  match v with
  | PyNone => false
  | PyBool b => b
  | PyInt z => negb (z =? 0)
  | PyFloat (S754_zero _) => false
  | PyFloat _ => true
  | PyStr s => negb (String.eqb s "")
  end.

(** [str(i)] for an [int]. *)
Definition str_int (i : Z) : string := pretty i.

(** The nearest integer to [n / d] ([d > 0]), ties to even. *)
Definition div_half_even (n d : Z) : Z :=
  let q := n / d in
  let r := n mod d in
  match 2 * r ?= d with
  | Lt => q
  | Gt => q + 1
  | Eq => if Z.even q then q else q + 1
  end.

(** The nearest integer to [10 * m * 2^e], ties to even: the digits that
    a correctly rounded conversion to one decimal place prints. *)
Definition tenths (m : positive) (e : Z) : Z :=
  match e with
  | Zneg p => div_half_even (10 * Zpos m) (2 ^ Zpos p)
  | _ => 10 * Zpos m * 2 ^ e
  end.

(** The binary64 nearest to [n / d] for [n >= 0], [d > 0], with sign
    [s]: what reading a decimal literal back gives. *)
Definition float_of_ratio (s : bool) (n d : Z) : float :=
  let '(mz, ez, lz) := SFdiv_core_binary prec emax n 0 d 0 in
  binary_round_aux prec emax s mz ez lz.

(** [round(x, 1)] on a float: the float is printed with one digit after
    the point, correctly rounded with ties to even, and the decimal is
    read back; infinities and NaN round to themselves. *)
Definition round1 (x : float) : float :=
  match x with
  | S754_finite s m e => float_of_ratio s (tenths m e) 10
  | _ => x
  end.

(** A float literal [n / 10^k], as the parser reads it. *)
Definition literal (n : Z) (k : Z) : float :=
  float_of_ratio (n <? 0) (Z.abs n) (10 ^ k).

End Py.

Export Py.

#[global] Instance result_ret : MRet Result := @Ok.
#[global] Instance result_bind : MBind Result :=
  fun A B k r => Py.bind r k.


(* ===================================================================== *)
(** ** Collaborators: vendor objects, coordinator, host application *)
(* ===================================================================== *)

(** [d[k]] on a [dict]. *)
Definition dict_getitem `{Countable K} {V} (d : gmap K V) (k : K) : Result V :=
  match d !! k with
  | Some v => Ok v
  | None => Raise KeyError
  end.

(** [d |= other]: the keys of [other] win. *)
Definition dict_ior `{Countable K} {V} (d other : gmap K V) : gmap K V :=
  other ∪ d.

(** The first object of [objs] whose id is [i], as the vendor library's
    [get_..._by_id] loops do; [KeyError] when there is none. *)
Fixpoint get_by_id {A} (id_of : A -> Z) (objs : list A) (i : Z) : Result A :=
  match objs with
  | [] => Raise KeyError
  | o :: objs' => if id_of o =? i then Ok o else get_by_id id_of objs' i
  end.

(** [getattr(obj, name)()] against the table of the remaining zero-argument
    getters of an object. *)
Definition getattr_call (methods : gmap string (Result Val)) (name : string)
  : Result Val :=
  match methods !! name with
  | Some r => r
  | None => Raise AttributeError
  end.

(** What a zone carries besides the reference to its thermostat. *)
Record ZoneState := {
  zs_zone_id : Z;
  zs_get_name : string;
  zs_methods : gmap string (Result Val);
}.

(** What a room IQ sensor carries besides the reference to its thermostat. *)
Record RoomIqState := {
  qs_iq_id : Z;
  qs_get_name : string;
  qs_get_type : string;
  qs_get_weight : Val;
  qs_get_humidity : Val;
  qs_get_battery_level : Val;
  qs_methods : gmap string (Result Val);
}.

(** [nexia.thermostat.NexiaThermostat]: the attributes and getters that the
    integration calls directly, the table of its other getters, and the
    zones and room IQ sensors it owns. *)
Record NexiaThermostat := {
  thermostat_id : Z;
  get_model : string;
  get_name : string;
  get_firmware : string;
  is_online : bool;
  has_variable_speed_compressor : bool;
  has_outdoor_temperature : bool;
  has_relative_humidity : bool;
  get_unit : string;
  thermostat_methods : gmap string (Result Val);
  zones : list ZoneState;
  room_iqs : list RoomIqState;
}.

(** [nexia.zone.NexiaThermostatZone]: [zone.thermostat] is the thermostat
    the zone was obtained from. *)
Record NexiaThermostatZone := {
  zone_thermostat : NexiaThermostat;
  zone_state : ZoneState;
}.

Definition zone_id (zone : NexiaThermostatZone) : Z :=
  zs_zone_id (zone_state zone).
Definition zone_get_name (zone : NexiaThermostatZone) : string :=
  zs_get_name (zone_state zone).

(** The room IQ sensor object: [iq.thermostat] is the thermostat the sensor
    was obtained from. *)
Record NexiaThermostatRoomIq := {
  iq_thermostat : NexiaThermostat;
  iq_state : RoomIqState;
}.

Definition iq_id (iq : NexiaThermostatRoomIq) : Z := qs_iq_id (iq_state iq).
Definition iq_get_name (iq : NexiaThermostatRoomIq) : string :=
  qs_get_name (iq_state iq).
Definition iq_get_type (iq : NexiaThermostatRoomIq) : string :=
  qs_get_type (iq_state iq).
Definition iq_get_weight (iq : NexiaThermostatRoomIq) : Val :=
  qs_get_weight (iq_state iq).
Definition iq_get_humidity (iq : NexiaThermostatRoomIq) : Val :=
  qs_get_humidity (iq_state iq).
Definition iq_get_battery_level (iq : NexiaThermostatRoomIq) : Val :=
  qs_get_battery_level (iq_state iq).

(** [thermostat.get_zone_ids()], [thermostat.get_zone_by_id(zone_id)]. *)
Definition get_zone_ids (thermostat : NexiaThermostat) : list Z :=
  map zs_zone_id (zones thermostat).
Definition get_zone_by_id (thermostat : NexiaThermostat) (i : Z)
  : Result NexiaThermostatZone :=
  st ← get_by_id zs_zone_id (zones thermostat) i;
  mret {| zone_thermostat := thermostat; zone_state := st |}.

(** [thermostat.get_room_iq_ids()], [thermostat.get_room_iq_by_id(id)]. *)
Definition get_room_iq_ids (thermostat : NexiaThermostat) : list Z :=
  map qs_iq_id (room_iqs thermostat).
Definition get_room_iq_by_id (thermostat : NexiaThermostat) (i : Z)
  : Result NexiaThermostatRoomIq :=
  st ← get_by_id qs_iq_id (room_iqs thermostat) i;
  mret {| iq_thermostat := thermostat; iq_state := st |}.

(** [getattr(thermostat, name)()]. *)
Definition thermostat_getattr_call (thermostat : NexiaThermostat)
    (name : string) : Result Val :=
  if String.eqb name "get_model" then Ok (PyStr (get_model thermostat))
  else if String.eqb name "get_name" then Ok (PyStr (get_name thermostat))
  else if String.eqb name "get_firmware" then
    Ok (PyStr (get_firmware thermostat))
  else if String.eqb name "has_variable_speed_compressor" then
    Ok (PyBool (has_variable_speed_compressor thermostat))
  else if String.eqb name "has_outdoor_temperature" then
    Ok (PyBool (has_outdoor_temperature thermostat))
  else if String.eqb name "has_relative_humidity" then
    Ok (PyBool (has_relative_humidity thermostat))
  else if String.eqb name "get_unit" then Ok (PyStr (get_unit thermostat))
  else getattr_call (thermostat_methods thermostat) name.

(** [getattr(zone, name)()]. *)
Definition zone_getattr_call (zone : NexiaThermostatZone) (name : string)
  : Result Val :=
  if String.eqb name "get_name" then Ok (PyStr (zone_get_name zone))
  else getattr_call (zs_methods (zone_state zone)) name.

(** [getattr(iq, name)()]. *)
Definition iq_getattr_call (iq : NexiaThermostatRoomIq) (name : string)
  : Result Val :=
  if String.eqb name "get_name" then Ok (PyStr (iq_get_name iq))
  else if String.eqb name "get_type" then Ok (PyStr (iq_get_type iq))
  else if String.eqb name "get_weight" then Ok (iq_get_weight iq)
  else if String.eqb name "get_humidity" then Ok (iq_get_humidity iq)
  else if String.eqb name "get_battery_level" then
    Ok (iq_get_battery_level iq)
  else getattr_call (qs_methods (iq_state iq)) name.

(** [nexia.home.NexiaHome]. *)
Record NexiaHome := {
  root_url : string;
  thermostats : list NexiaThermostat;
}.

Definition get_thermostat_ids (nexia_home : NexiaHome) : list Z :=
  map thermostat_id (thermostats nexia_home).
Definition get_thermostat_by_id (nexia_home : NexiaHome) (i : Z)
  : Result NexiaThermostat :=
  get_by_id thermostat_id (thermostats nexia_home) i.

(** [NexiaDataUpdateCoordinator]: the home it polls and whether the last
    poll succeeded. *)
Record NexiaDataUpdateCoordinator := {
  nexia_home : NexiaHome;
  last_update_success : bool;
}.

(** The callable an entity hands to the dispatcher is its own bound
    [async_write_ha_state]; entities are told apart by the handle under
    which the platform registered them. *)
Definition EntityRef := nat.

(** [HomeAssistant]: [hass.data], and the dispatcher's table from signal
    name to the callables connected to it. *)
Record HomeAssistant := {
  data : gmap string (gmap string NexiaDataUpdateCoordinator);
  dispatcher : gmap string (list EntityRef);
}.

Record ConfigEntry := {
  entry_id : string;
}.

(** Modelled from the spec: [async_dispatcher_connect] of
    [homeassistant.helpers.dispatcher] is absent; an entity subscribes
    to a named channel, and the returned handle releases exactly that
    subscription. *)
Definition async_dispatcher_connect (hass : HomeAssistant) (signal : string)
    (target : EntityRef) : HomeAssistant * (string * EntityRef) :=
  ({| data := data hass;
      dispatcher :=
        <[signal := default [] (dispatcher hass !! signal) ++ [target]]>
          (dispatcher hass) |},
   (signal, target)).

(** Modelled from the spec: [async_dispatcher_send] of
    [homeassistant.helpers.dispatcher] is absent; publishing on a channel
    calls the callables subscribed to that exact channel, whose handles
    are returned here in call order. *)
Definition async_dispatcher_send (hass : HomeAssistant) (signal : string)
  : list EntityRef :=
  default [] (dispatcher hass !! signal).

(* ===================================================================== *)
(** ** Constants and helpers imported from modules outside the two files *)
(* ===================================================================== *)

(** The names that [entity.py] and [sensor.py] import from [.const],
    [.util] and [nexia.const]; the development is parametric in them. *)
Class Imports := {
  DOMAIN : string;
  MANUFACTURER : string;
  SIGNAL_THERMOSTAT_UPDATE : string;
  SIGNAL_ZONE_UPDATE : string;
  SIGNAL_IQ_UPDATE : string;
  UNIT_CELSIUS : string;
  percent_conv : Val -> Result Val;
}.

(** Modelled from the spec: the [ATTR_*] constants of [homeassistant.const]
    are absent; they name the identifier, name, suggested-area and
    parent-link fields of the device-metadata record. *)
Definition ATTR_IDENTIFIERS : string := "identifiers".
Definition ATTR_NAME : string := "name".
Definition ATTR_SUGGESTED_AREA : string := "suggested_area".
Definition ATTR_VIA_DEVICE : string := "via_device".

(** [homeassistant.const.PERCENTAGE] and [UnitOfTemperature]. *)
Inductive UnitOfTemperature := CELSIUS | FAHRENHEIT.
Inductive UnitOfMeasurement :=
| PERCENTAGE
| Temperature (u : UnitOfTemperature).

Inductive SensorDeviceClass := TEMPERATURE | HUMIDITY.
Inductive SensorStateClass := MEASUREMENT.

(** The values a [DeviceInfo] holds: strings, a set of [(domain, id)]
    pairs, one such pair. *)
Inductive DeviceInfoValue :=
| DIStr (s : string)
| DIIdentifiers (ids : gset (string * Z))
| DIVia (parent : string * Z).

(** [DeviceInfo] is a [TypedDict], a plain [dict] when the program runs. *)
Abbreviation DeviceInfo := (gmap string DeviceInfoValue).

(* ===================================================================== *)
(** ** entity.py *)
(* ===================================================================== *)

(** What [async_on_remove] collects, the callables that end a
    subscription: the remover that the coordinator returns for a
    listener, and the remover that [async_dispatcher_connect] returns. *)
Inductive RemoveCallback :=
| CoordinatorRemover (ref : EntityRef)
| DispatcherRemover (handle : string * EntityRef).

(** [class NexiaEntity(CoordinatorEntity)]. [_on_remove] is the list that
    [async_on_remove] of the host's [Entity] class fills. *)
Record NexiaEntity := {
  coordinator : NexiaDataUpdateCoordinator;
  _attr_unique_id : string;
  _on_remove : list RemoveCallback;
}.

(** [class NexiaThermostatEntity(NexiaEntity)]. *)
Record NexiaThermostatEntity := {
  thermostat_super :> NexiaEntity;
  _thermostat : NexiaThermostat;
  _attr_device_info : DeviceInfo;
}.

(** [class NexiaThermostatZoneEntity(NexiaThermostatEntity)]. *)
Record NexiaThermostatZoneEntity := {
  zone_super :> NexiaThermostatEntity;
  _zone : NexiaThermostatZone;
}.

(** [class NexiaThermostatIqEntity(NexiaThermostatEntity)]. *)
Record NexiaThermostatIqEntity := {
  iq_super :> NexiaThermostatEntity;
  _iq : NexiaThermostatRoomIq;
}.

Definition set_on_remove (self : NexiaEntity)
    (l : list RemoveCallback) : NexiaEntity :=
  {| coordinator := coordinator self;
     _attr_unique_id := _attr_unique_id self;
     _on_remove := l |}.

(** [self.async_on_remove(func)]. *)
Definition async_on_remove (self : NexiaThermostatEntity)
    (func : RemoveCallback) : NexiaThermostatEntity :=
  {| thermostat_super := set_on_remove self (_on_remove self ++ [func]);
     _thermostat := _thermostat self;
     _attr_device_info := _attr_device_info self |}.

(** Modelled from the spec: [CoordinatorEntity.async_added_to_hass] of
    [homeassistant.helpers.update_coordinator] is absent; entities are
    refreshed in place on every poll, so the hook subscribes the entity
    to its coordinator, and as with every subscription the remover is
    handed to [async_on_remove] for release on detach. The coordinator's
    own table of listeners is not part of the modelled state. *)
Definition CoordinatorEntity_async_added_to_hass (ref : EntityRef)
    (self : NexiaThermostatEntity) : NexiaThermostatEntity :=
  async_on_remove self (CoordinatorRemover ref).

(** [self._attr_device_info |= other]. *)
Definition device_info_ior (self : NexiaThermostatEntity)
    (other : DeviceInfo) : NexiaThermostatEntity :=
  {| thermostat_super := thermostat_super self;
     _thermostat := _thermostat self;
     _attr_device_info := dict_ior (_attr_device_info self) other |}.

(** Modelled from the spec: [CoordinatorEntity.available] of
    [homeassistant.helpers.update_coordinator] is absent; it is the
    coordinator's "last update succeeded" flag. *)
Definition CoordinatorEntity_available (self : NexiaEntity) : bool :=
  last_update_success (coordinator self).

Section Entity.
Context `{Imports}.

(** [NexiaEntity.__init__] *)
Definition NexiaEntity_init (coordinator : NexiaDataUpdateCoordinator)
    (unique_id : string) : NexiaEntity :=
  {| coordinator := coordinator;
     _attr_unique_id := unique_id;
     _on_remove := [] |}.

(** [NexiaThermostatEntity.__init__] *)
Definition NexiaThermostatEntity_init
    (coordinator : NexiaDataUpdateCoordinator)
    (thermostat : NexiaThermostat) (unique_id : string)
  : NexiaThermostatEntity :=
  {| thermostat_super := NexiaEntity_init coordinator unique_id;
     _thermostat := thermostat;
     _attr_device_info :=
       list_to_map
         [ ("configuration_url",
            DIStr (root_url (nexia_home coordinator)));
           ("identifiers",
            DIIdentifiers {[ (DOMAIN, thermostat_id thermostat) ]});
           ("manufacturer", DIStr MANUFACTURER);
           ("model", DIStr (get_model thermostat));
           ("name", DIStr (get_name thermostat));
           ("sw_version", DIStr (get_firmware thermostat)) ] |}.

(** The channel names, [f"{SIGNAL}-{id}"]. *)
Definition thermostat_signal (self : NexiaThermostatEntity) : string :=
  SIGNAL_THERMOSTAT_UPDATE +:+ "-"
    +:+ str_int (thermostat_id (_thermostat self)).
Definition zone_signal (self : NexiaThermostatZoneEntity) : string :=
  SIGNAL_ZONE_UPDATE +:+ "-" +:+ str_int (zone_id (_zone self)).
Definition iq_signal (self : NexiaThermostatIqEntity) : string :=
  SIGNAL_IQ_UPDATE +:+ "-" +:+ str_int (iq_id (_iq self)).

(** [NexiaThermostatEntity.async_added_to_hass]; [ref] is the handle of
    [self]. The hook of the base class runs first. *)
Definition NexiaThermostatEntity_async_added_to_hass
    (ref : EntityRef) (self : NexiaThermostatEntity)
    (hass : HomeAssistant) : NexiaThermostatEntity * HomeAssistant :=
  let self := CoordinatorEntity_async_added_to_hass ref self in
  let '(hass, remove) :=
    async_dispatcher_connect hass (thermostat_signal self) ref in
  (async_on_remove self (DispatcherRemover remove), hass).

(** [NexiaThermostatEntity._signal_thermostat_update]: the handles whose
    [async_write_ha_state] runs. *)
Definition _signal_thermostat_update (self : NexiaThermostatEntity)
    (hass : HomeAssistant) : list EntityRef :=
  async_dispatcher_send hass (thermostat_signal self).

(** [NexiaThermostatEntity.available] *)
Definition available (self : NexiaThermostatEntity) : bool :=
  CoordinatorEntity_available self && is_online (_thermostat self).

(** [NexiaThermostatZoneEntity.__init__] *)
Definition NexiaThermostatZoneEntity_init
    (coordinator : NexiaDataUpdateCoordinator)
    (zone : NexiaThermostatZone) (unique_id : string)
  : NexiaThermostatZoneEntity :=
  let super_ :=
    NexiaThermostatEntity_init coordinator (zone_thermostat zone)
      unique_id in
  let zone_name := zone_get_name zone in
  {| zone_super :=
       device_info_ior super_
         (list_to_map
            [ (ATTR_IDENTIFIERS,
               DIIdentifiers {[ (DOMAIN, zone_id zone) ]});
              (ATTR_NAME, DIStr zone_name);
              (ATTR_SUGGESTED_AREA, DIStr zone_name);
              (ATTR_VIA_DEVICE,
               DIVia (DOMAIN, thermostat_id (zone_thermostat zone))) ]);
     _zone := zone |}.

(** [NexiaThermostatZoneEntity.async_added_to_hass] *)
Definition NexiaThermostatZoneEntity_async_added_to_hass
    (ref : EntityRef) (self : NexiaThermostatZoneEntity)
    (hass : HomeAssistant) : NexiaThermostatZoneEntity * HomeAssistant :=
  let '(super_, hass) :=
    NexiaThermostatEntity_async_added_to_hass ref self hass in
  let '(hass, remove) :=
    async_dispatcher_connect hass (zone_signal self) ref in
  ({| zone_super := async_on_remove super_ (DispatcherRemover remove);
      _zone := _zone self |},
   hass).

(** [NexiaThermostatZoneEntity._signal_zone_update] *)
Definition _signal_zone_update (self : NexiaThermostatZoneEntity)
    (hass : HomeAssistant) : list EntityRef :=
  async_dispatcher_send hass (zone_signal self).

(** [NexiaThermostatIqEntity.__init__] *)
Definition NexiaThermostatIqEntity_init
    (coordinator : NexiaDataUpdateCoordinator)
    (iq : NexiaThermostatRoomIq) (unique_id : string)
  : NexiaThermostatIqEntity :=
  let super_ :=
    NexiaThermostatEntity_init coordinator (iq_thermostat iq) unique_id in
  let is_builtin := String.eqb (iq_get_type iq) "thermostat" in
  let name := if is_builtin then "builtin" else iq_get_name iq in
  let iq_name := get_name (iq_thermostat iq) +:+ " " +:+ name in
  let area :=
    if is_builtin then get_name (iq_thermostat iq) else iq_get_name iq in
  {| iq_super :=
       device_info_ior super_
         (list_to_map
            [ (ATTR_IDENTIFIERS, DIIdentifiers {[ (DOMAIN, iq_id iq) ]});
              (ATTR_NAME, DIStr iq_name);
              (ATTR_SUGGESTED_AREA, DIStr area);
              (ATTR_VIA_DEVICE,
               DIVia (DOMAIN, thermostat_id (iq_thermostat iq))) ]);
     _iq := iq |}.

(** [NexiaThermostatIqEntity.async_added_to_hass] *)
Definition NexiaThermostatIqEntity_async_added_to_hass
    (ref : EntityRef) (self : NexiaThermostatIqEntity)
    (hass : HomeAssistant) : NexiaThermostatIqEntity * HomeAssistant :=
  let '(super_, hass) :=
    NexiaThermostatEntity_async_added_to_hass ref self hass in
  let '(hass, remove) :=
    async_dispatcher_connect hass (iq_signal self) ref in
  ({| iq_super := async_on_remove super_ (DispatcherRemover remove);
      _iq := _iq self |},
   hass).

(** [NexiaThermostatIqEntity._signal_iq_update] *)
Definition _signal_iq_update (self : NexiaThermostatIqEntity)
    (hass : HomeAssistant) : list EntityRef :=
  async_dispatcher_send hass (iq_signal self).

End Entity.

(* ===================================================================== *)
(** ** sensor.py *)
(* ===================================================================== *)

(** The attributes that the three sensor classes set in [__init__] on top
    of their entity base class. *)
Record SensorAttrs := {
  _call : string;
  _modifier : option (Val -> Result Val);
  _attr_device_class : option SensorDeviceClass;
  _attr_native_unit_of_measurement : option UnitOfMeasurement;
  _attr_state_class : option SensorStateClass;
  _attr_translation_key : option string;
}.

(** The body shared by the three [__init__]s after [super().__init__]. *)
Definition sensor_attrs_init (sensor_call : string)
    (translation_key : option string)
    (sensor_class : option SensorDeviceClass)
    (sensor_unit : option UnitOfMeasurement)
    (state_class : option SensorStateClass)
    (modifier : option (Val -> Result Val)) : SensorAttrs :=
  {| _call := sensor_call;
     _modifier := modifier;
     _attr_device_class := sensor_class;
     _attr_native_unit_of_measurement := sensor_unit;
     _attr_state_class := state_class;
     _attr_translation_key :=
       match translation_key with
       | Some k => Some k
       | None => None
       end |}.

(** [class NexiaThermostatSensor(NexiaThermostatEntity, SensorEntity)] *)
Record NexiaThermostatSensor := {
  ts_entity :> NexiaThermostatEntity;
  ts_attrs :> SensorAttrs;
}.

(** [class NexiaThermostatZoneSensor(NexiaThermostatZoneEntity, SensorEntity)] *)
Record NexiaThermostatZoneSensor := {
  zs_entity :> NexiaThermostatZoneEntity;
  zs_attrs :> SensorAttrs;
}.

(** [class NexiaThermostatIqSensor(NexiaThermostatIqEntity, SensorEntity)] *)
Record NexiaThermostatIqSensor := {
  qs_entity :> NexiaThermostatIqEntity;
  qs_attrs :> SensorAttrs;
}.

(** An element of [entities: list[NexiaThermostatEntity]]. *)
Inductive SensorEntity :=
| ThermostatSensor (s : NexiaThermostatSensor)
| ZoneSensor (s : NexiaThermostatZoneSensor)
| IqSensor (s : NexiaThermostatIqSensor).

(** Upcasts of a list element. *)
Definition as_thermostat_entity (e : SensorEntity) : NexiaThermostatEntity :=
  match e with
  | ThermostatSensor s => s
  | ZoneSensor s => s
  | IqSensor s => s
  end.
Definition as_sensor (e : SensorEntity) : SensorAttrs :=
  match e with
  | ThermostatSensor s => s
  | ZoneSensor s => s
  | IqSensor s => s
  end.

Section Sensor.
Context `{Imports}.

(** [_get_temperature_unit] *)
Definition _get_temperature_unit (thermostat : NexiaThermostat)
  : UnitOfTemperature :=
  if String.eqb (get_unit thermostat) UNIT_CELSIUS then CELSIUS
  else FAHRENHEIT.

(** [NexiaThermostatSensor.__init__] *)
Definition NexiaThermostatSensor_init
    (coordinator : NexiaDataUpdateCoordinator)
    (thermostat : NexiaThermostat) (sensor_call : string)
    (translation_key : option string)
    (sensor_class : option SensorDeviceClass)
    (sensor_unit : option UnitOfMeasurement)
    (state_class : option SensorStateClass)
    (modifier : option (Val -> Result Val)) : NexiaThermostatSensor :=
  {| ts_entity :=
       NexiaThermostatEntity_init coordinator thermostat
         (str_int (thermostat_id thermostat) +:+ "_" +:+ sensor_call);
     ts_attrs :=
       sensor_attrs_init sensor_call translation_key sensor_class
         sensor_unit state_class modifier |}.

(** [NexiaThermostatSensor.native_value] *)
Definition NexiaThermostatSensor_native_value
    (self : NexiaThermostatSensor) : Result Val :=
  val ← thermostat_getattr_call (_thermostat self) (_call self);
  val ← match _modifier self with
        | Some modifier => modifier val
        | None => mret val
        end;
  mret (match val with
        | PyFloat f => PyFloat (round1 f)
        | _ => val
        end).

(** [NexiaThermostatZoneSensor.__init__] *)
Definition NexiaThermostatZoneSensor_init
    (coordinator : NexiaDataUpdateCoordinator)
    (zone : NexiaThermostatZone) (sensor_call : string)
    (translation_key : option string)
    (sensor_class : option SensorDeviceClass)
    (sensor_unit : option UnitOfMeasurement)
    (state_class : option SensorStateClass)
    (modifier : option (Val -> Result Val)) : NexiaThermostatZoneSensor :=
  {| zs_entity :=
       NexiaThermostatZoneEntity_init coordinator zone
         (str_int (zone_id zone) +:+ "_" +:+ sensor_call);
     zs_attrs :=
       sensor_attrs_init sensor_call translation_key sensor_class
         sensor_unit state_class modifier |}.

(** [NexiaThermostatZoneSensor.native_value] *)
Definition NexiaThermostatZoneSensor_native_value
    (self : NexiaThermostatZoneSensor) : Result Val :=
  val ← zone_getattr_call (_zone self) (_call self);
  val ← match _modifier self with
        | Some modifier => modifier val
        | None => mret val
        end;
  mret (match val with
        | PyFloat f => PyFloat (round1 f)
        | _ => val
        end).

(** [NexiaThermostatIqSensor.__init__] *)
Definition NexiaThermostatIqSensor_init
    (coordinator : NexiaDataUpdateCoordinator)
    (iq : NexiaThermostatRoomIq) (sensor_call : string)
    (translation_key : option string)
    (sensor_class : option SensorDeviceClass)
    (sensor_unit : option UnitOfMeasurement)
    (state_class : option SensorStateClass)
    (modifier : option (Val -> Result Val)) : NexiaThermostatIqSensor :=
  {| qs_entity :=
       NexiaThermostatIqEntity_init coordinator iq
         (str_int (iq_id iq) +:+ "_" +:+ sensor_call);
     qs_attrs :=
       sensor_attrs_init sensor_call translation_key sensor_class
         sensor_unit state_class modifier |}.

(** [NexiaThermostatIqSensor.native_value] *)
Definition NexiaThermostatIqSensor_native_value
    (self : NexiaThermostatIqSensor) : Result Val :=
  val ← iq_getattr_call (_iq self) (_call self);
  val ← match _modifier self with
        | Some modifier => modifier val
        | None => mret val
        end;
  mret (match val with
        | PyFloat f => PyFloat (round1 f)
        | _ => val
        end).

(** [entity.native_value] on a list element: the class decides. *)
Definition native_value (e : SensorEntity) : Result Val :=
  match e with
  | ThermostatSensor s => NexiaThermostatSensor_native_value s
  | ZoneSensor s => NexiaThermostatZoneSensor_native_value s
  | IqSensor s => NexiaThermostatIqSensor_native_value s
  end.

(** The zone loop body of [async_setup_entry]. *)
Definition zone_sensors (coordinator : NexiaDataUpdateCoordinator)
    (thermostat : NexiaThermostat) (zone : NexiaThermostatZone)
  : list SensorEntity :=
  [ (* Temperature *)
    ZoneSensor
      (NexiaThermostatZoneSensor_init coordinator zone "get_temperature"
         None (Some TEMPERATURE)
         (Some (Temperature (_get_temperature_unit thermostat)))
         (Some MEASUREMENT) None);
    (* Zone Status *)
    ZoneSensor
      (NexiaThermostatZoneSensor_init coordinator zone "get_status"
         (Some "zone_status") None None None None);
    (* Setpoint Status *)
    ZoneSensor
      (NexiaThermostatZoneSensor_init coordinator zone
         "get_setpoint_status" (Some "zone_setpoint_status")
         None None None None) ].

(** The room IQ loop body of [async_setup_entry]. *)
Definition iq_sensors (coordinator : NexiaDataUpdateCoordinator)
    (thermostat : NexiaThermostat) (iq : NexiaThermostatRoomIq)
  : list SensorEntity :=
  let entities := [] in
  let entities :=
    if truthy (iq_get_weight iq) then
      entities ++
      [ IqSensor
          (NexiaThermostatIqSensor_init coordinator iq "get_weight"
             (Some "room_iq_weight") None (Some PERCENTAGE)
             (Some MEASUREMENT) (Some percent_conv)) ]
    else entities in
  let entities :=
    entities ++
    [ IqSensor
        (NexiaThermostatIqSensor_init coordinator iq "get_temperature"
           None (Some TEMPERATURE)
           (Some (Temperature (_get_temperature_unit thermostat)))
           (Some MEASUREMENT) None) ] in
  let entities :=
    if truthy (iq_get_humidity iq) then
      entities ++
      [ IqSensor
          (NexiaThermostatIqSensor_init coordinator iq "get_humidity"
             None (Some HUMIDITY) (Some PERCENTAGE) (Some MEASUREMENT)
             None) ]
    else entities in
  let entities :=
    if truthy (iq_get_battery_level iq) then
      entities ++
      [ IqSensor
          (NexiaThermostatIqSensor_init coordinator iq "get_battery_level"
             (Some "room_iq_battery") None (Some PERCENTAGE)
             (Some MEASUREMENT) None) ]
    else entities in
  entities.

(** The part of the thermostat loop body before the zone loop. *)
Definition system_sensors (coordinator : NexiaDataUpdateCoordinator)
    (thermostat : NexiaThermostat) : list SensorEntity :=
  let entities :=
    [ ThermostatSensor
        (NexiaThermostatSensor_init coordinator thermostat
           "get_system_status" (Some "system_status") None None None None);
      (* Air cleaner *)
      ThermostatSensor
        (NexiaThermostatSensor_init coordinator thermostat
           "get_air_cleaner_mode" (Some "air_cleaner_mode")
           None None None None) ] in
  (* Compressor Speed *)
  let entities :=
    if has_variable_speed_compressor thermostat then
      entities ++
      [ ThermostatSensor
          (NexiaThermostatSensor_init coordinator thermostat
             "get_current_compressor_speed"
             (Some "current_compressor_speed") None (Some PERCENTAGE)
             (Some MEASUREMENT) (Some percent_conv));
        ThermostatSensor
          (NexiaThermostatSensor_init coordinator thermostat
             "get_requested_compressor_speed"
             (Some "requested_compressor_speed") None (Some PERCENTAGE)
             (Some MEASUREMENT) (Some percent_conv)) ]
    else entities in
  (* Outdoor Temperature *)
  let entities :=
    if has_outdoor_temperature thermostat then
      entities ++
      [ ThermostatSensor
          (NexiaThermostatSensor_init coordinator thermostat
             "get_outdoor_temperature" (Some "outdoor_temperature")
             (Some TEMPERATURE)
             (Some (Temperature (_get_temperature_unit thermostat)))
             (Some MEASUREMENT) None) ]
    else entities in
  (* Relative Humidity *)
  let entities :=
    if has_relative_humidity thermostat then
      entities ++
      [ ThermostatSensor
          (NexiaThermostatSensor_init coordinator thermostat
             "get_relative_humidity" None (Some HUMIDITY)
             (Some PERCENTAGE) (Some MEASUREMENT) (Some percent_conv)) ]
    else entities in
  entities.

(** The thermostat loop body of [async_setup_entry]. *)
Definition thermostat_sensors (coordinator : NexiaDataUpdateCoordinator)
    (thermostat : NexiaThermostat) : Result (list SensorEntity) :=
  let entities := system_sensors coordinator thermostat in
  (* Zone Sensors *)
  zone_entities ←
    for_extend
      (fun zone_id =>
         zone ← get_zone_by_id thermostat zone_id;
         mret (zone_sensors coordinator thermostat zone))
      (get_zone_ids thermostat);
  (* Room IQ sensors *)
  iq_entities ←
    for_extend
      (fun room_iq_id =>
         iq ← get_room_iq_by_id thermostat room_iq_id;
         mret (iq_sensors coordinator thermostat iq))
      (get_room_iq_ids thermostat);
  mret (entities ++ zone_entities ++ iq_entities).

(** [async_setup_entry]: the result is the list handed to
    [async_add_entities]. *)
Definition async_setup_entry (hass : HomeAssistant)
    (config_entry : ConfigEntry) : Result (list SensorEntity) :=
  domain_data ← dict_getitem (data hass) DOMAIN;
  coordinator ← dict_getitem domain_data (entry_id config_entry);
  let nexia_home := nexia_home coordinator in
  (* Thermostat / System Sensors *)
  for_extend
    (fun thermostat_id =>
       thermostat ← get_thermostat_by_id nexia_home thermostat_id;
       thermostat_sensors coordinator thermostat)
    (get_thermostat_ids nexia_home).

(** [entity.async_added_to_hass] on a list element: the class decides. *)
Definition async_added_to_hass (ref : EntityRef) (e : SensorEntity)
    (hass : HomeAssistant) : SensorEntity * HomeAssistant :=
  match e with
  | ThermostatSensor s =>
      let '(b, hass) :=
        NexiaThermostatEntity_async_added_to_hass ref s hass in
      (ThermostatSensor {| ts_entity := b; ts_attrs := s |}, hass)
  | ZoneSensor s =>
      let '(b, hass) :=
        NexiaThermostatZoneEntity_async_added_to_hass ref s hass in
      (ZoneSensor {| zs_entity := b; zs_attrs := s |}, hass)
  | IqSensor s =>
      let '(b, hass) :=
        NexiaThermostatIqEntity_async_added_to_hass ref s hass in
      (IqSensor {| qs_entity := b; qs_attrs := s |}, hass)
  end.

End Sensor.

(* ===================================================================== *)
(** ** The behaviour the specification describes, in its own words *)
(* ===================================================================== *)

(** The owning device's accessor, invoked by name. *)
Definition owner_getattr_call (e : SensorEntity) (name : string)
  : Result Val :=
  match e with
  | ThermostatSensor s => thermostat_getattr_call (_thermostat s) name
  | ZoneSensor s => zone_getattr_call (_zone s) name
  | IqSensor s => iq_getattr_call (_iq s) name
  end.

(** The owning device's vendor-assigned id. *)
Definition owner_id (e : SensorEntity) : Z :=
  match e with
  | ThermostatSensor s => thermostat_id (_thermostat s)
  | ZoneSensor s => zone_id (_zone s)
  | IqSensor s => iq_id (_iq s)
  end.

(** The unique id of a list element. *)
Definition unique_id_of (e : SensorEntity) : string :=
  _attr_unique_id (as_thermostat_entity e).

(** "applies the transform if present" *)
Definition apply_transform (modifier : option (Val -> Result Val))
    (v : Val) : Result Val :=
  match modifier with
  | Some f => f v
  | None => Ok v
  end.

(** "rounds to one decimal place if the result is a floating-point number" *)
Definition round_if_float (v : Val) : Val :=
  if isinstance_float v then
    match v with
    | PyFloat f => PyFloat (round1 f)
    | _ => v
    end
  else v.

(** The object that a lookup by [o]'s id finds in [objs]. *)
Definition first_by_id {A} (id_of : A -> Z) (objs : list A) (o : A) : A :=
  match get_by_id id_of objs (id_of o) with
  | Ok o' => o'
  | Raise _ => o
  end.

(** The zone and room IQ objects of a thermostat, from what it stores. *)
Definition zone_in (thermostat : NexiaThermostat) (st : ZoneState)
  : NexiaThermostatZone :=
  {| zone_thermostat := thermostat; zone_state := st |}.
Definition iq_in (thermostat : NexiaThermostat) (st : RoomIqState)
  : NexiaThermostatRoomIq :=
  {| iq_thermostat := thermostat; iq_state := st |}.

(** The coordinator that [hass.data[DOMAIN][entry_id]] holds, if any. *)
Definition coordinator_of `{Imports} (hass : HomeAssistant)
    (config_entry : ConfigEntry) : option NexiaDataUpdateCoordinator :=
  domain_data ← data hass !! DOMAIN;
  domain_data !! entry_id config_entry.

(** What the thermostat loop body adds for [thermostat]: its system
    sensors, then three sensors for the zone that each zone id resolves
    to, then the sensors of the room IQ sensor that each id resolves to. *)
Definition thermostat_entities `{Imports}
    (coordinator : NexiaDataUpdateCoordinator) (thermostat : NexiaThermostat)
  : list SensorEntity :=
  system_sensors coordinator thermostat
  ++ concat (map (fun st =>
                    zone_sensors coordinator thermostat
                      (zone_in thermostat
                         (first_by_id zs_zone_id (zones thermostat) st)))
               (zones thermostat))
  ++ concat (map (fun st =>
                    iq_sensors coordinator thermostat
                      (iq_in thermostat
                         (first_by_id qs_iq_id (room_iqs thermostat) st)))
               (room_iqs thermostat)).

(** Which sensors are meant by "the sensor for reading [call] of ...". *)
Definition is_thermostat_sensor (tid : Z) (call : string)
    (e : SensorEntity) : bool :=
  match e with
  | ThermostatSensor s =>
      (thermostat_id (_thermostat s) =? tid) && String.eqb (_call s) call
  | _ => false
  end.

Definition is_compressor_speed_sensor (tid : Z) (e : SensorEntity) : bool :=
  is_thermostat_sensor tid "get_current_compressor_speed" e
  || is_thermostat_sensor tid "get_requested_compressor_speed" e.

Definition is_iq_sensor (tid qid : Z) (call : string) (e : SensorEntity)
  : bool :=
  match e with
  | IqSensor s =>
      (thermostat_id (_thermostat s) =? tid)
      && (iq_id (_iq s) =? qid) && String.eqb (_call s) call
  | _ => false
  end.

(** "its temperature sensors (outdoor, zone, and room-IQ temperature)" *)
Definition is_temperature_sensor (e : SensorEntity) : bool :=
  match _attr_device_class (as_sensor e) with
  | Some TEMPERATURE => true
  | _ => false
  end.

(** "returns the accessor's raw result (only float-rounded)" *)
Definition raw_rounded (read : Result Val) : Result Val :=
  raw ← read; mret (round_if_float raw).

(** "apply the percentage conversion transform before rounding" *)
Definition converted_rounded `{Imports} (read : Result Val) : Result Val :=
  raw ← read; v ← percent_conv raw; mret (round_if_float v).

(** How the percentage sensors treat what they read: the room IQ humidity
    and battery sensors have no transform, the room IQ weight sensor and
    the thermostat's relative-humidity sensor convert. *)
Definition percentage_sensor_transform `{Imports} (e : SensorEntity) : Prop :=
  match e with
  | IqSensor s =>
      (_call s = "get_humidity" ->
       _modifier s = None
       /\ _attr_native_unit_of_measurement s = Some PERCENTAGE
       /\ native_value e = raw_rounded (Ok (iq_get_humidity (_iq s))))
      /\ (_call s = "get_battery_level" ->
          _modifier s = None
          /\ _attr_native_unit_of_measurement s = Some PERCENTAGE
          /\ native_value e
             = raw_rounded (Ok (iq_get_battery_level (_iq s))))
      /\ (_call s = "get_weight" ->
          _modifier s = Some percent_conv
          /\ _attr_native_unit_of_measurement s = Some PERCENTAGE
          /\ native_value e
             = converted_rounded (Ok (iq_get_weight (_iq s))))
  | ThermostatSensor s =>
      _call s = "get_relative_humidity" ->
      _modifier s = Some percent_conv
      /\ _attr_native_unit_of_measurement s = Some PERCENTAGE
      /\ native_value e
         = converted_rounded
             (getattr_call (thermostat_methods (_thermostat s))
                "get_relative_humidity")
  | ZoneSensor _ => True
  end.

(** The three nesting levels, each with its own channel namespace. *)
Inductive Kind := KThermostat | KZone | KRoomIq.

#[global] Instance Kind_eq_dec : EqDecision Kind.
Proof. solve_decision. Defined.

Section Channels.
Context `{Imports}.

Definition signal_of (k : Kind) : string :=
  match k with
  | KThermostat => SIGNAL_THERMOSTAT_UPDATE
  | KZone => SIGNAL_ZONE_UPDATE
  | KRoomIq => SIGNAL_IQ_UPDATE
  end.

(** The channel keyed by an entity kind and an object id. *)
Definition channel (k : Kind) (i : Z) : string :=
  signal_of k +:+ "-" +:+ str_int i.

(** The channels an attached entity listens on. *)
Definition subscribed (e : SensorEntity) : list (Kind * Z) :=
  match e with
  | ThermostatSensor s => [ (KThermostat, thermostat_id (_thermostat s)) ]
  | ZoneSensor s =>
      [ (KThermostat, thermostat_id (_thermostat s));
        (KZone, zone_id (_zone s)) ]
  | IqSensor s =>
      [ (KThermostat, thermostat_id (_thermostat s));
        (KRoomIq, iq_id (_iq s)) ]
  end.

(** The platform attaches the entities in order; the handle of an
    entity is its position. *)
Fixpoint attach_from (ref : EntityRef) (es : list SensorEntity)
    (hass : HomeAssistant) : list SensorEntity * HomeAssistant :=
  match es with
  | [] => ([], hass)
  | e :: es' =>
      let '(e', hass) := async_added_to_hass ref e hass in
      let '(es'', hass) := attach_from (S ref) es' hass in
      (e' :: es'', hass)
  end.

(** The methods of an entity that the host or a service may call while
    the entity lives. *)
Inductive Call :=
| CallAddedToHass (ref : EntityRef)
| CallAvailable
| CallNativeValue
| CallSignalUpdate.

(** One call: only [async_added_to_hass] assigns to [self] or [hass];
    the others read, or publish without storing anything. *)
Definition step (st : SensorEntity * HomeAssistant) (c : Call)
  : SensorEntity * HomeAssistant :=
  match c with
  | CallAddedToHass ref => async_added_to_hass ref (fst st) (snd st)
  | CallAvailable => st
  | CallNativeValue => st
  | CallSignalUpdate => st
  end.

Definition run (st : SensorEntity * HomeAssistant) (cs : list Call)
  : SensorEntity * HomeAssistant :=
  fold_left step cs st.
End Channels.

(** No ["-"] in a signal name, so that [f"{SIGNAL}-{id}"] splits in one
    way only. *)
Fixpoint dash_free (s : string) : bool :=
  match s with
  | EmptyString => true
  | String c s' => negb (Ascii.eqb c "-"%char) && dash_free s'
  end.

(** The three signal names are distinct and free of ["-"]. *)
Definition distinct_signals `{Imports} : bool :=
  negb (String.eqb SIGNAL_THERMOSTAT_UPDATE SIGNAL_ZONE_UPDATE)
  && negb (String.eqb SIGNAL_THERMOSTAT_UPDATE SIGNAL_IQ_UPDATE)
  && negb (String.eqb SIGNAL_ZONE_UPDATE SIGNAL_IQ_UPDATE)
  && dash_free SIGNAL_THERMOSTAT_UPDATE
  && dash_free SIGNAL_ZONE_UPDATE
  && dash_free SIGNAL_IQ_UPDATE.

(* ===================================================================== *)
(** ** A concrete installation, to run the model on *)
(* ===================================================================== *)

Module Sample.

(** One possible [percent_conv]: [None] stays [None], a number becomes
    [round(val * 100.0, 1)]. *)
Definition percent_conv_x100 (val : Val) : Result Val :=
  let times_100 (f : float) :=
    Ok (PyFloat (round1 (SFmul prec emax f (literal 100 0)))) in
  match val with
  | PyNone => Ok PyNone
  | PyFloat f => times_100 f
  | PyInt z => times_100 (binary_normalize prec emax z 0 false)
  | PyBool b => times_100 (binary_normalize prec emax (Z.b2z b) 0 false)
  | PyStr _ => Raise TypeError
  end.

Definition imports : Imports :=
  {| DOMAIN := "nexia";
     MANUFACTURER := "Trane";
     SIGNAL_THERMOSTAT_UPDATE := "NEXIA_CLIMATE_THERMOSTAT_UPDATE";
     SIGNAL_ZONE_UPDATE := "NEXIA_CLIMATE_ZONE_UPDATE";
     SIGNAL_IQ_UPDATE := "NEXIA_CLIMATE_IQ_UPDATE";
     UNIT_CELSIUS := "C";
     percent_conv := percent_conv_x100 |}.

Definition living_room : ZoneState :=
  {| zs_zone_id := 10;
     zs_get_name := "Living room";
     zs_methods :=
       list_to_map
         [ ("get_temperature", Ok (PyInt 71));
           ("get_status", Ok (PyStr "Idle"));
           ("get_setpoint_status", Ok (PyStr "Run Schedule")) ] |}.

(** The sensor built into the thermostat: no battery. *)
Definition builtin_iq : RoomIqState :=
  {| qs_iq_id := 100;
     qs_get_name := "NativeIDTUniqueID";
     qs_get_type := "thermostat";
     qs_get_weight := PyFloat (literal 5 1);
     qs_get_humidity := PyInt 45;
     qs_get_battery_level := PyNone;
     qs_methods := list_to_map [ ("get_temperature", Ok (PyInt 72)) ] |}.

(** A wireless sensor that is not averaged in and reports no humidity. *)
Definition bedroom_iq : RoomIqState :=
  {| qs_iq_id := 101;
     qs_get_name := "Bedroom";
     qs_get_type := "930";
     qs_get_weight := PyFloat (literal 0 0);
     qs_get_humidity := PyInt 0;
     qs_get_battery_level := PyInt 87;
     qs_methods := list_to_map [ ("get_temperature", Ok (PyInt 69)) ] |}.

Definition upstairs : NexiaThermostat :=
  {| thermostat_id := 1;
     get_model := "XL1050";
     get_name := "Upstairs";
     get_firmware := "5.9.1";
     is_online := true;
     has_variable_speed_compressor := true;
     has_outdoor_temperature := true;
     has_relative_humidity := true;
     get_unit := "F";
     thermostat_methods :=
       list_to_map
         [ ("get_system_status", Ok (PyStr "Cooling"));
           ("get_air_cleaner_mode", Ok (PyStr "auto"));
           ("get_current_compressor_speed", Ok (PyFloat (literal 69 2)));
           ("get_requested_compressor_speed", Ok (PyFloat (literal 69 2)));
           ("get_outdoor_temperature", Ok (PyFloat (literal 7234 2)));
           ("get_relative_humidity", Ok (PyFloat (literal 52 2))) ];
     zones := [ living_room ];
     room_iqs := [ builtin_iq; bedroom_iq ] |}.

Definition downstairs : NexiaThermostat :=
  {| thermostat_id := 2;
     get_model := "XL824";
     get_name := "Downstairs";
     get_firmware := "5.9.1";
     is_online := true;
     has_variable_speed_compressor := false;
     has_outdoor_temperature := false;
     has_relative_humidity := false;
     get_unit := "C";
     thermostat_methods :=
       list_to_map
         [ ("get_system_status", Ok (PyStr "System Idle"));
           ("get_air_cleaner_mode", Ok (PyStr "auto")) ];
     zones := [];
     room_iqs := [] |}.

Definition home : NexiaHome :=
  {| root_url := "https://www.mynexia.com";
     thermostats := [ upstairs; downstairs ] |}.

(** A coordinator whose last poll succeeded, and one whose last poll
    failed. *)
Definition coordinator : NexiaDataUpdateCoordinator :=
  {| nexia_home := home; last_update_success := true |}.
Definition failed_coordinator : NexiaDataUpdateCoordinator :=
  {| nexia_home := home; last_update_success := false |}.

Definition config_entry : ConfigEntry := {| entry_id := "entry-1" |}.

Definition hass : HomeAssistant :=
  {| data := {[ "nexia" := {[ "entry-1" := coordinator ]} ]};
     dispatcher := ∅ |}.

(** The same snapshot inside an application that already has listeners. *)
Definition busy_hass : HomeAssistant :=
  {| data := {[ "nexia" := {[ "entry-1" := coordinator ]} ]};
     dispatcher := {[ "other_signal" := [7%nat] ]} |}.


(** What setup creates for the sample snapshot. *)
Definition entities : list SensorEntity :=
  match @async_setup_entry imports hass config_entry with
  | Ok es => es
  | Raise _ => []
  end.

End Sample.

(* ===================================================================== *)
(** ** Definitions for the further properties *)
(* ===================================================================== *)

(** Which sensors are meant by "the sensors of zone [zid] of thermostat
    [tid]". *)
Definition is_zone_sensor (tid zid : Z) (e : SensorEntity) : bool :=
  match e with
  | ZoneSensor s =>
      (thermostat_id (_thermostat s) =? tid) && (zone_id (_zone s) =? zid)
  | _ => false
  end.

(** How many sensors the room IQ loop body creates for one sensor. *)
Definition iq_sensor_count (q : RoomIqState) : nat :=
  (1 + Nat.b2n (truthy (qs_get_weight q))
   + Nat.b2n (truthy (qs_get_humidity q))
   + Nat.b2n (truthy (qs_get_battery_level q)))%nat.

(** How many sensors the thermostat loop body creates for one
    thermostat. *)
Definition thermostat_sensor_count (t : NexiaThermostat) : nat :=
  (2 + 2 * Nat.b2n (has_variable_speed_compressor t)
   + Nat.b2n (has_outdoor_temperature t)
   + Nat.b2n (has_relative_humidity t)
   + 3 * length (zones t)
   + list_sum (map iq_sensor_count (room_iqs t)))%nat.

(** No ["_"] in a string. *)
Fixpoint underscore_free (s : string) : bool :=
  match s with
  | EmptyString => true
  | String c s' => negb (Ascii.eqb c "_"%char) && underscore_free s'
  end.

(** The accessor name of a list element. *)
Definition call_of (e : SensorEntity) : string := _call (as_sensor e).

(** An installation whose only zone and only room IQ sensor carry the
    same vendor id. *)
Module Clash.

Definition zone : ZoneState :=
  {| zs_zone_id := 5;
     zs_get_name := "Hall";
     zs_methods := list_to_map [ ("get_temperature", Ok (PyInt 70)) ] |}.

Definition room_iq : RoomIqState :=
  {| qs_iq_id := 5;
     qs_get_name := "Hall sensor";
     qs_get_type := "930";
     qs_get_weight := PyNone;
     qs_get_humidity := PyNone;
     qs_get_battery_level := PyNone;
     qs_methods := list_to_map [ ("get_temperature", Ok (PyInt 71)) ] |}.

Definition thermostat : NexiaThermostat :=
  {| thermostat_id := 3;
     get_model := "XL850";
     get_name := "Hall";
     get_firmware := "5.9.1";
     is_online := true;
     has_variable_speed_compressor := false;
     has_outdoor_temperature := false;
     has_relative_humidity := false;
     get_unit := "F";
     thermostat_methods := ∅;
     zones := [ zone ];
     room_iqs := [ room_iq ] |}.

Definition coordinator : NexiaDataUpdateCoordinator :=
  {| nexia_home :=
       {| root_url := "https://www.mynexia.com";
          thermostats := [ thermostat ] |};
     last_update_success := true |}.

Definition hass : HomeAssistant :=
  {| data := {[ "nexia" := {[ "entry-1" := coordinator ]} ]};
     dispatcher := ∅ |}.

End Clash.

(** What ties a created entity to the snapshot: its coordinator, its
    thermostat, and for a zone or room IQ sensor the child's own parent
    reference. *)
Definition owned_by_snapshot (c : NexiaDataUpdateCoordinator)
    (e : SensorEntity) : Prop :=
  coordinator (as_thermostat_entity e) = c
  /\ _on_remove (as_thermostat_entity e) = []
  /\ _thermostat (as_thermostat_entity e) ∈ thermostats (nexia_home c)
  /\ match e with
     | ThermostatSensor _ => True
     | ZoneSensor s =>
         zone_thermostat (_zone s) = _thermostat s
         /\ zone_state (_zone s) ∈ zones (_thermostat s)
     | IqSensor s =>
         iq_thermostat (_iq s) = _thermostat s
         /\ iq_state (_iq s) ∈ room_iqs (_thermostat s)
     end.

(** The four sensors that show a status text. *)
Definition is_status_call (call : string) : bool :=
  String.eqb call "get_system_status"
  || String.eqb call "get_air_cleaner_mode"
  || String.eqb call "get_status"
  || String.eqb call "get_setpoint_status".

(** How the attributes of a created sensor hang together. *)
Definition consistent_attributes `{Imports} (e : SensorEntity) : Prop :=
  let a := as_sensor e in
  (if is_status_call (_call a) then
     _attr_native_unit_of_measurement a = None
     /\ _attr_device_class a = None
     /\ _attr_state_class a = None
     /\ _modifier a = None
     /\ is_Some (_attr_translation_key a)
   else
     is_Some (_attr_native_unit_of_measurement a)
     /\ _attr_state_class a = Some MEASUREMENT)
  /\ match _modifier a with
     | Some f =>
         f = percent_conv
         /\ _attr_native_unit_of_measurement a = Some PERCENTAGE
     | None => True
     end
  /\ match _attr_device_class a with
     | Some TEMPERATURE =>
         exists u, _attr_native_unit_of_measurement a = Some (Temperature u)
     | Some HUMIDITY => _attr_native_unit_of_measurement a = Some PERCENTAGE
     | None => True
     end.

(** The owner id and accessor name that a unique id is made of. *)
Definition sensor_key (e : SensorEntity) : Z * string :=
  (owner_id e, call_of e).

(** [f"{id}_{call}"] *)
Definition format_unique_id (key : Z * string) : string :=
  str_int key.1 +:+ "_" +:+ key.2.

(** The accessor names of the sensors that each loop body creates. *)
Definition system_calls (t : NexiaThermostat) : list string :=
  [ "get_system_status"; "get_air_cleaner_mode" ]
  ++ (if has_variable_speed_compressor t then
        [ "get_current_compressor_speed"; "get_requested_compressor_speed" ]
      else [])
  ++ (if has_outdoor_temperature t then [ "get_outdoor_temperature" ]
      else [])
  ++ (if has_relative_humidity t then [ "get_relative_humidity" ] else []).

Definition zone_calls : list string :=
  [ "get_temperature"; "get_status"; "get_setpoint_status" ].

Definition iq_calls (q : RoomIqState) : list string :=
  (if truthy (qs_get_weight q) then [ "get_weight" ] else [])
  ++ [ "get_temperature" ]
  ++ (if truthy (qs_get_humidity q) then [ "get_humidity" ] else [])
  ++ (if truthy (qs_get_battery_level q) then [ "get_battery_level" ]
      else []).

(** The accessor names used on thermostats; none is used on a zone or a
    room IQ sensor. *)
Definition is_system_call (call : string) : bool :=
  bool_decide
    (call ∈ [ "get_system_status"; "get_air_cleaner_mode";
              "get_current_compressor_speed";
              "get_requested_compressor_speed";
              "get_outdoor_temperature"; "get_relative_humidity" ]).

(** All zone ids and all room IQ ids of a snapshot. *)
Definition all_zone_ids (home : NexiaHome) : list Z :=
  concat (map get_zone_ids (thermostats home)).
Definition all_room_iq_ids (home : NexiaHome) : list Z :=
  concat (map get_room_iq_ids (thermostats home)).

(** The keys [(id, call)] of a list of objects, object by object. *)
Definition keyed_blocks {A} (id_of : A -> Z) (calls : A -> list string)
    (l : list A) : list (Z * string) :=
  concat (map (fun x => map (pair (id_of x)) (calls x)) l).

(* ===================================================================== *)
(** ** Generic lemmas: the exception monad, lookups by id, rounding *)
(* ===================================================================== *)

Section Generic.
Context {A B : Type}.

Lemma for_extend_pure (f : A -> list B) (xs : list A) :
  for_extend (fun x => Ok (f x)) xs = Ok (concat (map f xs)).
Proof.
  induction xs as [|x xs IH]; simpl; [reflexivity|].
  rewrite IH. reflexivity.
Qed.

Lemma for_extend_ext (f g : A -> Result (list B)) (xs : list A) :
  (forall x, x ∈ xs -> f x = g x) ->
  for_extend f xs = for_extend g xs.
Proof.
  induction xs as [|x xs IH]; intros Hfg; simpl; [reflexivity|].
  rewrite (Hfg x) by left.
  rewrite IH; [reflexivity|].
  intros y Hy. apply Hfg. right. exact Hy.
Qed.

Lemma for_extend_map {C} (h : C -> A) (f : A -> Result (list B))
    (xs : list C) :
  for_extend f (map h xs) = for_extend (fun c => f (h c)) xs.
Proof.
  induction xs as [|x xs IH]; simpl; [reflexivity|].
  rewrite IH. reflexivity.
Qed.
End Generic.

Section Lookup.
Context {A : Type} (id_of : A -> Z).

Lemma get_by_id_elem (objs : list A) (i : Z) (o : A) :
  get_by_id id_of objs i = Ok o -> o ∈ objs /\ id_of o = i.
Proof.
  induction objs as [|x objs IH]; simpl; [discriminate|].
  destruct (id_of x =? i) eqn:E.
  - intros [= <-]. split; [left | lia].
  - intros Hget. destruct (IH Hget) as [Hin Hid].
    split; [right; exact Hin | exact Hid].
Qed.

Lemma get_by_id_found (objs : list A) (o : A) :
  o ∈ objs -> exists o', get_by_id id_of objs (id_of o) = Ok o'.
Proof.
  induction objs as [|x objs IH]; intros Hin.
  - inversion Hin.
  - simpl. destruct (id_of x =? id_of o) eqn:E; [eauto|].
    apply IH. inversion Hin; subst; [lia | assumption].
Qed.

Lemma get_by_id_first (objs : list A) (o : A) :
  o ∈ objs ->
  get_by_id id_of objs (id_of o) = Ok (first_by_id id_of objs o).
Proof.
  intros Hin. unfold first_by_id.
  destruct (get_by_id_found objs o Hin) as [o' ->]. reflexivity.
Qed.

Lemma first_by_id_elem (objs : list A) (o : A) :
  o ∈ objs ->
  first_by_id id_of objs o ∈ objs /\ id_of (first_by_id id_of objs o) = id_of o.
Proof.
  intros Hin. apply get_by_id_elem, get_by_id_first, Hin.
Qed.

Lemma id_inj_NoDup (objs : list A) (o o' : A) :
  NoDup (map id_of objs) -> o ∈ objs -> o' ∈ objs ->
  id_of o = id_of o' -> o = o'.
Proof.
  induction objs as [|x objs IH]; intros Hnd Ho Ho' Hid.
  - inversion Ho.
  - simpl in Hnd. apply NoDup_cons in Hnd as [Hx Hnd].
    inversion Ho as [|? ? ? Ho1]; inversion Ho' as [|? ? ? Ho1']; subst.
    + reflexivity.
    + exfalso. apply Hx. rewrite Hid.
      apply list_elem_of_fmap_2. assumption.
    + exfalso. apply Hx. rewrite <- Hid.
      apply list_elem_of_fmap_2. assumption.
    + apply IH; assumption.
Qed.

Lemma first_by_id_NoDup (objs : list A) (o : A) :
  NoDup (map id_of objs) -> o ∈ objs -> first_by_id id_of objs o = o.
Proof.
  intros Hnd Hin. destruct (first_by_id_elem objs o Hin) as [Hin' Hid].
  eapply id_inj_NoDup; eassumption.
Qed.

(** A loop over the ids of [l] that looks each object up again. *)
Lemma for_extend_by_id {B} (objs l : list A)
    (k : A -> Result (list B)) :
  (forall o, o ∈ l -> o ∈ objs) ->
  for_extend (fun i => o ← get_by_id id_of objs i; k o) (map id_of l)
  = for_extend (fun o => k (first_by_id id_of objs o)) l.
Proof.
  intros Hsub. rewrite for_extend_map. apply for_extend_ext.
  intros o Ho. rewrite (get_by_id_first objs o (Hsub o Ho)). reflexivity.
Qed.

(** Selecting from the blocks of objects with distinct ids: only the
    block of [o] can contribute. *)
Lemma concat_map_single {B} (objs : list A) (o : A)
    (F : A -> list B) :
  NoDup (map id_of objs) -> o ∈ objs ->
  (forall o', o' ∈ objs -> id_of o' <> id_of o -> F o' = []) ->
  concat (map F objs) = F o.
Proof.
  induction objs as [|x objs IH]; intros Hnd Hin Hother.
  - inversion Hin.
  - simpl in *. apply NoDup_cons in Hnd as [Hx Hnd].
    inversion Hin as [|? ? ? Hin']; subst.
    + assert (Hrest : concat (map F objs) = []).
      { clear IH Hin. induction objs as [|y objs IH']; [reflexivity|].
        simpl. rewrite (Hother y).
        - simpl. apply IH'.
          + intros Hc. apply Hx. right. exact Hc.
          + apply NoDup_cons in Hnd as [_ Hnd]. exact Hnd.
          + intros o' Ho' Hne. apply Hother; [|exact Hne].
            inversion Ho'; subst; [left | right; right; assumption].
        - right; left.
        - intros Heq. apply Hx. rewrite <- Heq. left. }
      rewrite Hrest, app_nil_r. reflexivity.
    + rewrite (Hother x); [|left|].
      * simpl. apply IH; [assumption..|].
        intros o' Ho' Hne. apply Hother; [right|]; assumption.
      * intros Heq. apply Hx. rewrite Heq.
        apply list_elem_of_fmap_2. assumption.
Qed.
End Lookup.

Lemma div_half_even_nearest (n d : Z) :
  0 < d ->
  Z.abs (2 * n - 2 * div_half_even n d * d) <= d.
Proof.
  intros Hd. unfold div_half_even.
  pose proof (Z.div_mod n d ltac:(lia)) as Hdm.
  pose proof (Z.mod_pos_bound n d Hd) as Hr.
  set (q := n / d) in *. set (r := n mod d) in *. clearbody q r. subst n.
  cbv zeta. destruct (Z.compare_spec (2 * r) d) as [E|E|E]; cbv iota.
  - destruct (Z.even q).
    + replace (2 * (d * q + r) - 2 * q * d) with (2 * r) by ring. lia.
    + replace (2 * (d * q + r) - 2 * (q + 1) * d) with (2 * r - 2 * d)
        by ring. lia.
  - replace (2 * (d * q + r) - 2 * q * d) with (2 * r) by ring. lia.
  - replace (2 * (d * q + r) - 2 * (q + 1) * d) with (2 * r - 2 * d)
      by ring. lia.
Qed.

Lemma div_half_even_tie (n d : Z) :
  0 < d ->
  Z.abs (2 * n - 2 * div_half_even n d * d) = d ->
  Z.even (div_half_even n d) = true.
Proof.
  intros Hd. unfold div_half_even.
  pose proof (Z.div_mod n d ltac:(lia)) as Hdm.
  pose proof (Z.mod_pos_bound n d Hd) as Hr.
  set (q := n / d) in *. set (r := n mod d) in *. clearbody q r. subst n.
  cbv zeta. destruct (Z.compare_spec (2 * r) d) as [E|E|E]; cbv iota.
  - intros _. destruct (Z.even q) eqn:Ev; [exact Ev|].
    rewrite Z.even_add, Ev. reflexivity.
  - replace (2 * (d * q + r) - 2 * q * d) with (2 * r) by ring. lia.
  - replace (2 * (d * q + r) - 2 * (q + 1) * d) with (2 * r - 2 * d)
      by ring. lia.
Qed.

(* ===================================================================== *)
(** ** What [async_setup_entry] returns *)
(* ===================================================================== *)

Ltac unfold_monad :=
  unfold mbind, mret, result_bind, result_ret, Py.bind in *.

Section Setup.
Context `{Imports}.

Lemma thermostat_sensors_eq (c : NexiaDataUpdateCoordinator)
    (t : NexiaThermostat) :
  thermostat_sensors c t = Ok (thermostat_entities c t).
Proof.
  unfold thermostat_sensors, thermostat_entities.
  unfold get_zone_ids, get_room_iq_ids.
  rewrite !for_extend_map.
  rewrite (for_extend_ext _
             (fun st => Ok (zone_sensors c t
                              (zone_in t (first_by_id zs_zone_id
                                            (zones t) st))))).
  2:{ intros st Hst. unfold get_zone_by_id.
      rewrite (get_by_id_first _ _ _ Hst). reflexivity. }
  rewrite for_extend_pure.
  rewrite (for_extend_ext _
             (fun st => Ok (iq_sensors c t
                              (iq_in t (first_by_id qs_iq_id
                                          (room_iqs t) st))))).
  2:{ intros st Hst. unfold get_room_iq_by_id.
      rewrite (get_by_id_first _ _ _ Hst). reflexivity. }
  rewrite for_extend_pure. reflexivity.
Qed.

(** Setup never raises once the coordinator is in [hass.data], and its
    result is the concatenation of the thermostats' blocks. *)
Lemma async_setup_entry_eq (hass : HomeAssistant)
    (config_entry : ConfigEntry) (c : NexiaDataUpdateCoordinator) :
  coordinator_of hass config_entry = Some c ->
  async_setup_entry hass config_entry
  = Ok (concat
          (map (fun t =>
                  thermostat_entities c
                    (first_by_id thermostat_id
                       (thermostats (nexia_home c)) t))
             (thermostats (nexia_home c)))).
Proof.
  unfold coordinator_of, async_setup_entry, dict_getitem.
  intros Hc. destruct (data hass !! DOMAIN) as [d|]; [|discriminate].
  simpl in Hc. unfold_monad. rewrite Hc.
  unfold get_thermostat_ids, get_thermostat_by_id.
  rewrite for_extend_map.
  rewrite (for_extend_ext _
             (fun t => Ok (thermostat_entities c
                             (first_by_id thermostat_id
                                (thermostats (nexia_home c)) t)))).
  2:{ intros t Ht. rewrite (get_by_id_first _ _ _ Ht).
      apply thermostat_sensors_eq. }
  apply for_extend_pure.
Qed.

Lemma async_setup_entry_distinct (hass : HomeAssistant)
    (config_entry : ConfigEntry) (c : NexiaDataUpdateCoordinator) :
  coordinator_of hass config_entry = Some c ->
  NoDup (get_thermostat_ids (nexia_home c)) ->
  async_setup_entry hass config_entry
  = Ok (concat (map (thermostat_entities c)
                  (thermostats (nexia_home c)))).
Proof.
  intros Hc Hnd. rewrite (async_setup_entry_eq _ _ _ Hc).
  f_equal. f_equal. apply map_ext_in. intros t Ht.
  rewrite first_by_id_NoDup; [reflexivity | exact Hnd |].
  apply list_elem_of_In. exact Ht.
Qed.

(** Every created entity comes from one thermostat of the snapshot:
    from its system sensors, from one of its zones, or from one of its
    room IQ sensors. *)
Lemma thermostat_entities_origin (c : NexiaDataUpdateCoordinator)
    (t : NexiaThermostat) (e : SensorEntity) :
  e ∈ thermostat_entities c t ->
  e ∈ system_sensors c t
  \/ (exists st, st ∈ zones t /\ e ∈ zone_sensors c t (zone_in t st))
  \/ (exists st, st ∈ room_iqs t /\ e ∈ iq_sensors c t (iq_in t st)).
Proof.
  unfold thermostat_entities. rewrite !elem_of_app.
  intros [Hs | [Hz | Hq]]; [left; exact Hs | right; left | right; right].
  - apply list_elem_of_In, in_concat in Hz as (l & Hl & He).
    apply in_map_iff in Hl as (st & <- & Hst).
    apply list_elem_of_In in Hst, He.
    exists (first_by_id zs_zone_id (zones t) st). split; [|exact He].
    apply first_by_id_elem, Hst.
  - apply list_elem_of_In, in_concat in Hq as (l & Hl & He).
    apply in_map_iff in Hl as (st & <- & Hst).
    apply list_elem_of_In in Hst, He.
    exists (first_by_id qs_iq_id (room_iqs t) st). split; [|exact He].
    apply first_by_id_elem, Hst.
Qed.

Lemma async_setup_entry_origin (hass : HomeAssistant)
    (config_entry : ConfigEntry) (c : NexiaDataUpdateCoordinator)
    (P : SensorEntity -> Prop) :
  coordinator_of hass config_entry = Some c ->
  (forall t e, t ∈ thermostats (nexia_home c) ->
               e ∈ thermostat_entities c t -> P e) ->
  exists es, async_setup_entry hass config_entry = Ok es /\ Forall P es.
Proof.
  intros Hc HP. eexists. split; [apply async_setup_entry_eq, Hc|].
  apply Forall_forall. intros e He.
  apply list_elem_of_In, in_concat in He as (l & Hl & He).
  apply in_map_iff in Hl as (t & <- & Ht).
  apply list_elem_of_In in Ht, He.
  eapply HP; [|exact He]. apply first_by_id_elem, Ht.
Qed.
End Setup.

(* ===================================================================== *)
(** ** Reading a sensor *)
(* ===================================================================== *)

(** The three classes carry the same [native_value] body. *)
Lemma native_value_bind (e : SensorEntity) :
  native_value e
  = (raw ← owner_getattr_call e (_call (as_sensor e));
     v ← apply_transform (_modifier (as_sensor e)) raw;
     mret (round_if_float v)).
Proof.
  assert (Hr : forall v, match v with
                         | PyFloat f => PyFloat (round1 f)
                         | _ => v
                         end = round_if_float v)
    by (intros []; reflexivity).
  destruct e as [s|s|s]; simpl;
    unfold NexiaThermostatSensor_native_value,
      NexiaThermostatZoneSensor_native_value,
      NexiaThermostatIqSensor_native_value, apply_transform;
    unfold_monad;
    (match goal with
     | |- context [match ?r with Ok _ => _ | Raise _ => _ end] =>
         destruct r as [raw|]; [|reflexivity]
     end);
    (destruct (_modifier _) as [f|];
     [destruct (f raw); [rewrite Hr|]; reflexivity
     |rewrite Hr; reflexivity]).
Qed.

(** What printing with one digit after the point means: for a float
    [m * 2^-p] the digits [tenths] are an integer nearest to ten times
    the float, and an even one when two are equally near. *)
Lemma tenths_nearest (m p : positive) :
  Z.abs (2 * (10 * Zpos m) - 2 * tenths m (Zneg p) * 2 ^ Zpos p)
    <= 2 ^ Zpos p
  /\ (Z.abs (2 * (10 * Zpos m) - 2 * tenths m (Zneg p) * 2 ^ Zpos p)
        = 2 ^ Zpos p ->
      Z.even (tenths m (Zneg p)) = true).
Proof.
  assert (Hd : 0 < 2 ^ Zpos p) by (apply Z.pow_pos_nonneg; lia).
  unfold tenths. split.
  - apply div_half_even_nearest, Hd.
  - apply div_half_even_tie, Hd.
Qed.



(* ===================================================================== *)
(** ** Availability *)
(* ===================================================================== *)

(** C2. A thermostat-scoped entity is available exactly when the
    coordinator's last update succeeded and the owning thermostat is
    online; after a failed refresh it is unavailable whatever the
    thermostat reports. *)
Theorem available_iff_coordinator_and_online (self : NexiaThermostatEntity) :
  (available self = true <->
   last_update_success (coordinator self) = true
   /\ is_online (_thermostat self) = true)
  /\ (last_update_success (coordinator self) = false ->
      available self = false).
Proof.
  unfold available, CoordinatorEntity_available. split.
  - apply andb_true_iff.
  - intros ->. reflexivity.
Qed.

Lemma available_iff_coordinator_and_online_witness :
  is_online Sample.upstairs = true
  /\ available
       (@NexiaThermostatEntity_init Sample.imports Sample.failed_coordinator
          Sample.upstairs "1_get_system_status") = false.
Proof.
  split; [reflexivity|].
  apply (proj2 (available_iff_coordinator_and_online
                  (@NexiaThermostatEntity_init Sample.imports
                     Sample.failed_coordinator Sample.upstairs
                     "1_get_system_status"))).
  reflexivity.
Defined.

(* ===================================================================== *)
(** ** Properties of every entity that setup creates *)
(* ===================================================================== *)

Ltac forall_list :=
  repeat first [ apply Forall_nil_2 | apply Forall_cons_2 | apply Forall_app_2 ].

Section Created.
Context `{Imports}.

(** A property of all entities follows from the three loop bodies. *)
Lemma created_Forall (hass : HomeAssistant) (config_entry : ConfigEntry)
    (c : NexiaDataUpdateCoordinator) (P : SensorEntity -> Prop) :
  coordinator_of hass config_entry = Some c ->
  (forall t, Forall P (system_sensors c t)) ->
  (forall t st, Forall P (zone_sensors c t (zone_in t st))) ->
  (forall t st, Forall P (iq_sensors c t (iq_in t st))) ->
  exists es, async_setup_entry hass config_entry = Ok es /\ Forall P es.
Proof.
  intros Hc Hs Hz Hq. apply (async_setup_entry_origin _ _ c); [exact Hc|].
  intros t e _ He.
  destruct (thermostat_entities_origin _ _ _ He)
    as [Hin | [(st & _ & Hin) | (st & _ & Hin)]].
  - exact (proj1 (Forall_forall _ _) (Hs t) e Hin).
  - exact (proj1 (Forall_forall _ _) (Hz t _) e Hin).
  - exact (proj1 (Forall_forall _ _) (Hq t _) e Hin).
Qed.

Lemma system_sensors_unique_id (c : NexiaDataUpdateCoordinator)
    (t : NexiaThermostat) :
  Forall (fun e => unique_id_of e
                   = str_int (owner_id e) +:+ "_" +:+ _call (as_sensor e))
    (system_sensors c t).
Proof.
  unfold system_sensors.
  destruct (has_variable_speed_compressor t),
    (has_outdoor_temperature t), (has_relative_humidity t);
    simpl; forall_list; reflexivity.
Qed.

Lemma zone_sensors_unique_id (c : NexiaDataUpdateCoordinator)
    (t : NexiaThermostat) (zone : NexiaThermostatZone) :
  Forall (fun e => unique_id_of e
                   = str_int (owner_id e) +:+ "_" +:+ _call (as_sensor e))
    (zone_sensors c t zone).
Proof. unfold zone_sensors. forall_list; reflexivity. Qed.

Lemma iq_sensors_unique_id (c : NexiaDataUpdateCoordinator)
    (t : NexiaThermostat) (iq : NexiaThermostatRoomIq) :
  Forall (fun e => unique_id_of e
                   = str_int (owner_id e) +:+ "_" +:+ _call (as_sensor e))
    (iq_sensors c t iq).
Proof.
  unfold iq_sensors.
  destruct (truthy (iq_get_weight iq)), (truthy (iq_get_humidity iq)),
    (truthy (iq_get_battery_level iq));
    simpl; forall_list; reflexivity.
Qed.
End Created.

(** C3. Setup over a device snapshot returns entities (it does not raise);
    the unique id of each of them, thermostat, zone or room IQ sensor, is
    the owning device's id, an underscore and the accessor name; a second
    setup over the same snapshot, from whatever application state, gives
    the same unique ids in the same order. *)
Theorem unique_id_is_owner_id_and_accessor `{Imports}
    (hass1 hass2 : HomeAssistant) (entry1 entry2 : ConfigEntry)
    (c : NexiaDataUpdateCoordinator) :
  coordinator_of hass1 entry1 = Some c ->
  coordinator_of hass2 entry2 = Some c ->
  exists es1 es2,
    async_setup_entry hass1 entry1 = Ok es1
    /\ async_setup_entry hass2 entry2 = Ok es2
    /\ Forall (fun e => unique_id_of e
                        = str_int (owner_id e) +:+ "_"
                            +:+ _call (as_sensor e)) es1
    /\ map unique_id_of es2 = map unique_id_of es1.
Proof.
  intros H1 H2.
  destruct (created_Forall hass1 entry1 c _ H1
              (system_sensors_unique_id c)
              (fun t st => zone_sensors_unique_id c t (zone_in t st))
              (fun t st => iq_sensors_unique_id c t (iq_in t st)))
    as (es1 & Hes1 & Hall).
  exists es1, es1. split; [exact Hes1|]. split; [|split].
  - rewrite (async_setup_entry_eq _ _ _ H2).
    rewrite (async_setup_entry_eq _ _ _ H1) in Hes1. exact Hes1.
  - exact Hall.
  - reflexivity.
Qed.

Lemma unique_id_is_owner_id_and_accessor_witness :
  exists es1 es2,
    @async_setup_entry Sample.imports Sample.hass Sample.config_entry
    = Ok es1
    /\ @async_setup_entry Sample.imports Sample.busy_hass
         Sample.config_entry = Ok es2
    /\ Forall (fun e => unique_id_of e
                        = str_int (owner_id e) +:+ "_"
                            +:+ _call (as_sensor e)) es1
    /\ map unique_id_of es2 = map unique_id_of es1.
Proof.
  apply (@unique_id_is_owner_id_and_accessor Sample.imports Sample.hass
           Sample.busy_hass Sample.config_entry Sample.config_entry
           Sample.coordinator); vm_compute; reflexivity.
Defined.

Example sample_unique_ids :
  (es ← @async_setup_entry Sample.imports Sample.hass Sample.config_entry;
   mret (map unique_id_of es))
  = Ok [ "1_get_system_status"; "1_get_air_cleaner_mode";
         "1_get_current_compressor_speed";
         "1_get_requested_compressor_speed"; "1_get_outdoor_temperature";
         "1_get_relative_humidity";
         "10_get_temperature"; "10_get_status"; "10_get_setpoint_status";
         "100_get_weight"; "100_get_temperature"; "100_get_humidity";
         "101_get_temperature"; "101_get_battery_level";
         "2_get_system_status"; "2_get_air_cleaner_mode" ].
Proof. vm_compute. reflexivity. Qed.

(* ===================================================================== *)
(** ** Temperature unit *)
(* ===================================================================== *)

Lemma _get_temperature_unit_spec `{Imports} (t : NexiaThermostat) :
  (_get_temperature_unit t = CELSIUS <-> get_unit t = UNIT_CELSIUS)
  /\ (_get_temperature_unit t = FAHRENHEIT <-> get_unit t <> UNIT_CELSIUS).
Proof.
  unfold _get_temperature_unit.
  destruct (String.eqb_spec (get_unit t) UNIT_CELSIUS) as [E|E];
    split; split; intros; congruence.
Qed.

(** C6. The unit that [_get_temperature_unit] picks for a thermostat is
    Celsius exactly when the thermostat's configured unit string equals
    the vendor's Celsius constant and Fahrenheit exactly when it differs;
    setup gives that unit of the owning thermostat to every temperature
    sensor it creates, and the temperature sensors are the outdoor, zone
    and room IQ temperature sensors. *)
Theorem temperature_unit_celsius_iff_unit_constant `{Imports}
    (hass : HomeAssistant) (config_entry : ConfigEntry)
    (c : NexiaDataUpdateCoordinator) :
  coordinator_of hass config_entry = Some c ->
  (forall t,
      (_get_temperature_unit t = CELSIUS <-> get_unit t = UNIT_CELSIUS)
      /\ (_get_temperature_unit t = FAHRENHEIT <->
          get_unit t <> UNIT_CELSIUS))
  /\ exists es,
      async_setup_entry hass config_entry = Ok es
      /\ Forall
           (fun e =>
              is_temperature_sensor e
              = (String.eqb (_call (as_sensor e)) "get_outdoor_temperature"
                 || String.eqb (_call (as_sensor e)) "get_temperature")
              /\ (is_temperature_sensor e = true ->
                  _attr_native_unit_of_measurement (as_sensor e)
                  = Some (Temperature
                            (_get_temperature_unit
                               (_thermostat (as_thermostat_entity e))))))
           es.
Proof.
  intros Hc. split; [apply _get_temperature_unit_spec|].
  apply (created_Forall _ _ c); [exact Hc|..].
  - intros t. unfold system_sensors.
    destruct (has_variable_speed_compressor t),
      (has_outdoor_temperature t), (has_relative_humidity t);
      simpl; forall_list; (split; [reflexivity|]);
      solve [discriminate 1 | reflexivity].
  - intros t st. unfold zone_sensors.
    forall_list; (split; [reflexivity|]);
      solve [discriminate 1 | reflexivity].
  - intros t st. unfold iq_sensors.
    destruct (truthy (iq_get_weight _)), (truthy (iq_get_humidity _)),
      (truthy (iq_get_battery_level _));
      simpl; forall_list; (split; [reflexivity|]);
      solve [discriminate 1 | reflexivity].
Qed.

Lemma temperature_unit_celsius_iff_unit_constant_witness :
  (@_get_temperature_unit Sample.imports Sample.downstairs = CELSIUS
   /\ @_get_temperature_unit Sample.imports Sample.upstairs = FAHRENHEIT)
  /\ exists es,
      @async_setup_entry Sample.imports Sample.hass Sample.config_entry
      = Ok es
      /\ Forall
           (fun e =>
              is_temperature_sensor e
              = (String.eqb (_call (as_sensor e)) "get_outdoor_temperature"
                 || String.eqb (_call (as_sensor e)) "get_temperature")
              /\ (is_temperature_sensor e = true ->
                  _attr_native_unit_of_measurement (as_sensor e)
                  = Some (Temperature
                            (@_get_temperature_unit Sample.imports
                               (_thermostat (as_thermostat_entity e))))))
           es.
Proof.
  split; [split; reflexivity|].
  apply (@temperature_unit_celsius_iff_unit_constant Sample.imports
           Sample.hass Sample.config_entry Sample.coordinator).
  vm_compute. reflexivity.
Defined.


(* ===================================================================== *)
(** ** Counting the entities that setup creates for one device *)
(* ===================================================================== *)

Lemma filter_none {A} (f : A -> bool) (l : list A) :
  Forall (fun x => f x = false) l -> List.filter f l = [].
Proof.
  induction 1 as [|x l Hx _ IH]; simpl; [reflexivity|].
  rewrite Hx. exact IH.
Qed.

Lemma concat_map_none {A B} (g : A -> list B) (l : list A) :
  (forall x, x ∈ l -> g x = []) -> concat (map g l) = [].
Proof.
  induction l as [|x l IH]; intros Hg; simpl; [reflexivity|].
  rewrite (Hg x) by left. simpl.
  apply IH. intros y Hy. apply Hg. right. exact Hy.
Qed.

Lemma filter_concat_none {A B} (f : B -> bool) (g : A -> list B)
    (l : list A) :
  (forall x, x ∈ l -> List.filter f (g x) = []) ->
  List.filter f (concat (map g l)) = [].
Proof.
  induction l as [|x l IH]; intros Hg; simpl; [reflexivity|].
  rewrite List.filter_app, (Hg x) by left. simpl.
  apply IH. intros y Hy. apply Hg. right. exact Hy.
Qed.

Section Counting.
Context `{Imports}.

(** The class and the owner of what each loop body creates. *)
Lemma system_sensors_owner (c : NexiaDataUpdateCoordinator)
    (t : NexiaThermostat) :
  Forall (fun e => exists s, e = ThermostatSensor s /\ _thermostat s = t)
    (system_sensors c t).
Proof.
  unfold system_sensors.
  destruct (has_variable_speed_compressor t),
    (has_outdoor_temperature t), (has_relative_humidity t);
    simpl; forall_list; eexists; split; reflexivity.
Qed.

Lemma zone_sensors_owner (c : NexiaDataUpdateCoordinator)
    (t : NexiaThermostat) (zone : NexiaThermostatZone) :
  Forall (fun e => exists s, e = ZoneSensor s /\ _zone s = zone)
    (zone_sensors c t zone).
Proof.
  unfold zone_sensors. forall_list; eexists; split; reflexivity.
Qed.

Lemma iq_sensors_owner (c : NexiaDataUpdateCoordinator)
    (t : NexiaThermostat) (iq : NexiaThermostatRoomIq) :
  Forall (fun e => exists s, e = IqSensor s
                             /\ _thermostat s = iq_thermostat iq
                             /\ _iq s = iq)
    (iq_sensors c t iq).
Proof.
  unfold iq_sensors.
  destruct (truthy (iq_get_weight iq)), (truthy (iq_get_humidity iq)),
    (truthy (iq_get_battery_level iq));
    simpl; forall_list; eexists; repeat split; reflexivity.
Qed.

(** A selection that only accepts thermostat sensors looks at the system
    sensors only. *)
Lemma filter_thermostat_level (c : NexiaDataUpdateCoordinator)
    (t : NexiaThermostat) (f : SensorEntity -> bool) :
  (forall s, f (ZoneSensor s) = false) ->
  (forall s, f (IqSensor s) = false) ->
  List.filter f (thermostat_entities c t)
  = List.filter f (system_sensors c t).
Proof.
  intros Hz Hq. unfold thermostat_entities.
  rewrite !List.filter_app, !filter_concat_none, !app_nil_r; [reflexivity|..].
  - intros st _. apply filter_none.
    eapply Forall_impl; [apply iq_sensors_owner|].
    intros e (s & -> & _). apply Hq.
  - intros st _. apply filter_none.
    eapply Forall_impl; [apply zone_sensors_owner|].
    intros e (s & -> & _). apply Hz.
Qed.

(** A selection of room IQ sensors looks at the room IQ loop only. *)
Lemma filter_iq_level (c : NexiaDataUpdateCoordinator)
    (t : NexiaThermostat) (f : SensorEntity -> bool) :
  (forall s, f (ThermostatSensor s) = false) ->
  (forall s, f (ZoneSensor s) = false) ->
  List.filter f (thermostat_entities c t)
  = concat (map (fun st =>
                   List.filter f
                     (iq_sensors c t
                        (iq_in t (first_by_id qs_iq_id (room_iqs t) st))))
              (room_iqs t)).
Proof.
  intros Ht Hz. unfold thermostat_entities.
  rewrite !List.filter_app, filter_concat_none.
  - rewrite (filter_none f (system_sensors c t)).
    + simpl. rewrite <- concat_filter_map, map_map. reflexivity.
    + eapply Forall_impl; [apply system_sensors_owner|].
      intros e (s & -> & _). apply Ht.
  - intros st _. apply filter_none.
    eapply Forall_impl; [apply zone_sensors_owner|].
    intros e (s & -> & _). apply Hz.
Qed.

(** With distinct thermostat ids, the entities selected by a predicate
    that fails on all other thermostats come from the block of [t]. *)
Lemma filter_created_single (hass : HomeAssistant)
    (config_entry : ConfigEntry) (c : NexiaDataUpdateCoordinator)
    (t : NexiaThermostat) (f : SensorEntity -> bool) :
  coordinator_of hass config_entry = Some c ->
  NoDup (get_thermostat_ids (nexia_home c)) ->
  t ∈ thermostats (nexia_home c) ->
  (forall t', thermostat_id t' <> thermostat_id t ->
              List.filter f (thermostat_entities c t') = []) ->
  exists es,
    async_setup_entry hass config_entry = Ok es
    /\ List.filter f es = List.filter f (thermostat_entities c t).
Proof.
  intros Hc Hnd Ht Hother.
  exists (concat (map (thermostat_entities c) (thermostats (nexia_home c)))).
  split; [apply async_setup_entry_distinct; assumption|].
  rewrite <- concat_filter_map, map_map.
  apply (concat_map_single thermostat_id _ t
           (fun t' => List.filter f (thermostat_entities c t')));
    [exact Hnd | exact Ht |].
  intros t' _ Hne. apply Hother, Hne.
Qed.

Lemma filter_compressor_speed (c : NexiaDataUpdateCoordinator)
    (t : NexiaThermostat) (tid : Z) :
  List.filter (is_compressor_speed_sensor tid) (system_sensors c t)
  = if thermostat_id t =? tid then
      if has_variable_speed_compressor t then
        [ ThermostatSensor
            (NexiaThermostatSensor_init c t "get_current_compressor_speed"
               (Some "current_compressor_speed") None (Some PERCENTAGE)
               (Some MEASUREMENT) (Some percent_conv));
          ThermostatSensor
            (NexiaThermostatSensor_init c t
               "get_requested_compressor_speed"
               (Some "requested_compressor_speed") None (Some PERCENTAGE)
               (Some MEASUREMENT) (Some percent_conv)) ]
      else []
    else [].
Proof.
  unfold system_sensors, is_compressor_speed_sensor, is_thermostat_sensor.
  destruct (has_variable_speed_compressor t),
    (has_outdoor_temperature t), (has_relative_humidity t);
    simpl; destruct (thermostat_id t =? tid); reflexivity.
Qed.

Lemma filter_iq_sensors_other (c : NexiaDataUpdateCoordinator)
    (t : NexiaThermostat) (iq : NexiaThermostatRoomIq) (tid qid : Z)
    (call : string) :
  thermostat_id (iq_thermostat iq) <> tid \/ iq_id iq <> qid ->
  List.filter (is_iq_sensor tid qid call) (iq_sensors c t iq) = [].
Proof.
  intros Hne. apply filter_none.
  eapply Forall_impl; [apply iq_sensors_owner|].
  intros e (s & -> & Ht & Hq). unfold is_iq_sensor. rewrite Ht, Hq.
  destruct Hne as [Hne|Hne]; apply Z.eqb_neq in Hne; rewrite Hne;
    [reflexivity|]. rewrite andb_false_r. reflexivity.
Qed.

(** With distinct thermostat ids and distinct room IQ ids on [t], the
    sensors selected for room IQ sensor [q] of [t] are those that the
    loop body creates for [q]. *)
Lemma filter_created_iq (hass : HomeAssistant)
    (config_entry : ConfigEntry) (c : NexiaDataUpdateCoordinator)
    (t : NexiaThermostat) (q : RoomIqState) (call : string) :
  coordinator_of hass config_entry = Some c ->
  NoDup (get_thermostat_ids (nexia_home c)) ->
  t ∈ thermostats (nexia_home c) ->
  NoDup (get_room_iq_ids t) ->
  q ∈ room_iqs t ->
  exists es,
    async_setup_entry hass config_entry = Ok es
    /\ List.filter (is_iq_sensor (thermostat_id t) (qs_iq_id q) call) es
       = List.filter (is_iq_sensor (thermostat_id t) (qs_iq_id q) call)
           (iq_sensors c t (iq_in t q)).
Proof.
  intros Hc Hnd Ht Hndq Hq.
  destruct (filter_created_single hass config_entry c t
              (is_iq_sensor (thermostat_id t) (qs_iq_id q) call)
              Hc Hnd Ht) as (es & Hes & Hfilter).
  - intros t' Hne. rewrite filter_iq_level by reflexivity.
    apply concat_map_none. intros st _.
    apply filter_iq_sensors_other. left. exact Hne.
  - exists es. split; [exact Hes|]. rewrite Hfilter.
    rewrite filter_iq_level by reflexivity.
    rewrite (map_ext_in _
               (fun st =>
                  List.filter
                    (is_iq_sensor (thermostat_id t) (qs_iq_id q) call)
                    (iq_sensors c t (iq_in t st)))).
    2:{ intros st Hst.
        rewrite first_by_id_NoDup;
          [reflexivity | exact Hndq | apply list_elem_of_In, Hst]. }
    apply (concat_map_single qs_iq_id _ q
             (fun st =>
                List.filter
                  (is_iq_sensor (thermostat_id t) (qs_iq_id q) call)
                  (iq_sensors c t (iq_in t st))));
      [exact Hndq | exact Hq |].
    intros st _ Hne. apply filter_iq_sensors_other. right. exact Hne.
Qed.
End Counting.


(** C4. With distinct thermostat ids in the snapshot, setup returns, and
    among what it returns the compressor-speed sensors of a thermostat
    with a variable-speed compressor are exactly two, the current-speed
    and the requested-speed sensor, both in percent, both measurements,
    both with the percentage conversion as transform; for a thermostat
    without such a compressor there is none. Read off the entities: the
    accessor names are those two, and each such sensor has the
    percentage conversion as [_modifier], percent as unit, the
    measurement state class, no device class, the thermostat as owner,
    and as value what the conversion makes of the accessor's result,
    rounded if it is a float. *)
Theorem compressor_speed_sensors_two_or_none `{Imports}
    (hass : HomeAssistant) (config_entry : ConfigEntry)
    (c : NexiaDataUpdateCoordinator) (t : NexiaThermostat) :
  coordinator_of hass config_entry = Some c ->
  NoDup (get_thermostat_ids (nexia_home c)) ->
  t ∈ thermostats (nexia_home c) ->
  exists es,
    async_setup_entry hass config_entry = Ok es
    /\ List.filter (is_compressor_speed_sensor (thermostat_id t)) es
       = (if has_variable_speed_compressor t then
            [ ThermostatSensor
                (NexiaThermostatSensor_init c t
                   "get_current_compressor_speed"
                   (Some "current_compressor_speed") None
                   (Some PERCENTAGE) (Some MEASUREMENT)
                   (Some percent_conv));
              ThermostatSensor
                (NexiaThermostatSensor_init c t
                   "get_requested_compressor_speed"
                   (Some "requested_compressor_speed") None
                   (Some PERCENTAGE) (Some MEASUREMENT)
                   (Some percent_conv)) ]
          else [])
    /\ length (List.filter (is_compressor_speed_sensor (thermostat_id t)) es)
       = (if has_variable_speed_compressor t then 2%nat else 0%nat)
    /\ map (fun e => _call (as_sensor e))
         (List.filter (is_compressor_speed_sensor (thermostat_id t)) es)
       = (if has_variable_speed_compressor t then
            [ "get_current_compressor_speed";
              "get_requested_compressor_speed" ]
          else [])
    /\ Forall
         (fun e =>
            _modifier (as_sensor e) = Some percent_conv
            /\ _attr_native_unit_of_measurement (as_sensor e)
               = Some PERCENTAGE
            /\ _attr_state_class (as_sensor e) = Some MEASUREMENT
            /\ _attr_device_class (as_sensor e) = None
            /\ _thermostat (as_thermostat_entity e) = t
            /\ native_value e
               = converted_rounded
                   (getattr_call (thermostat_methods t)
                      (_call (as_sensor e))))
         (List.filter (is_compressor_speed_sensor (thermostat_id t)) es).
Proof.
  intros Hc Hnd Ht.
  destruct (filter_created_single hass config_entry c t
              (is_compressor_speed_sensor (thermostat_id t)) Hc Hnd Ht)
    as (es & Hes & Hfilter).
  - intros t' Hne. rewrite filter_thermostat_level by reflexivity.
    rewrite filter_compressor_speed.
    apply Z.eqb_neq in Hne. rewrite Hne. reflexivity.
  - exists es. split; [exact Hes|].
    rewrite Hfilter, filter_thermostat_level by reflexivity.
    rewrite filter_compressor_speed, Z.eqb_refl.
    destruct (has_variable_speed_compressor t);
      (split; [reflexivity|]); (split; [reflexivity|]);
      (split; [reflexivity|]); forall_list;
      repeat split; try reflexivity;
      rewrite native_value_bind; reflexivity.
Qed.

Lemma compressor_speed_sensors_two_or_none_witness :
  exists es,
    @async_setup_entry Sample.imports Sample.hass Sample.config_entry
    = Ok es
    /\ map unique_id_of
         (List.filter (is_compressor_speed_sensor 1) es)
       = [ "1_get_current_compressor_speed";
           "1_get_requested_compressor_speed" ]
    /\ List.filter (is_compressor_speed_sensor 2) es = []
    /\ map (fun e => (_attr_native_unit_of_measurement (as_sensor e),
                      _attr_state_class (as_sensor e), native_value e))
         (List.filter (is_compressor_speed_sensor 1) es)
       = [ (Some PERCENTAGE, Some MEASUREMENT,
            Ok (PyFloat (S754_finite false 4855443348258816 (-46))));
           (Some PERCENTAGE, Some MEASUREMENT,
            Ok (PyFloat (S754_finite false 4855443348258816 (-46)))) ].
Proof.
  destruct (@compressor_speed_sensors_two_or_none Sample.imports
              Sample.hass Sample.config_entry Sample.coordinator
              Sample.upstairs)
    as (es & Hes & Hup & _);
    [vm_compute; reflexivity | compute_done | left |].
  destruct (@compressor_speed_sensors_two_or_none Sample.imports
              Sample.hass Sample.config_entry Sample.coordinator
              Sample.downstairs)
    as (es' & Hes' & Hdown & _);
    [vm_compute; reflexivity | compute_done | right; left |].
  exists es. split; [exact Hes|].
  assert (es' = es) as -> by congruence.
  change (thermostat_id Sample.upstairs) with 1 in Hup.
  split; [rewrite Hup; reflexivity|]. split; [exact Hdown|].
  rewrite Hup. vm_compute. reflexivity.
Defined.

Section RoomIq.
Context `{Imports}.

Lemma filter_iq_sensors_weight (c : NexiaDataUpdateCoordinator)
    (t : NexiaThermostat) (q : RoomIqState) :
  List.filter (is_iq_sensor (thermostat_id t) (qs_iq_id q) "get_weight")
    (iq_sensors c t (iq_in t q))
  = if truthy (qs_get_weight q) then
      [ IqSensor
          (NexiaThermostatIqSensor_init c (iq_in t q) "get_weight"
             (Some "room_iq_weight") None (Some PERCENTAGE)
             (Some MEASUREMENT) (Some percent_conv)) ]
    else [].
Proof.
  unfold iq_sensors, is_iq_sensor, iq_get_weight, iq_get_humidity,
    iq_get_battery_level.
  destruct (truthy (qs_get_weight _)), (truthy (qs_get_humidity _)),
    (truthy (qs_get_battery_level _));
    cbn; rewrite ?Z.eqb_refl; reflexivity.
Qed.

Lemma filter_iq_sensors_temperature (c : NexiaDataUpdateCoordinator)
    (t : NexiaThermostat) (q : RoomIqState) :
  List.filter
    (is_iq_sensor (thermostat_id t) (qs_iq_id q) "get_temperature")
    (iq_sensors c t (iq_in t q))
  = [ IqSensor
        (NexiaThermostatIqSensor_init c (iq_in t q) "get_temperature"
           None (Some TEMPERATURE)
           (Some (Temperature (_get_temperature_unit t)))
           (Some MEASUREMENT) None) ].
Proof.
  unfold iq_sensors, is_iq_sensor, iq_get_weight, iq_get_humidity,
    iq_get_battery_level.
  destruct (truthy (qs_get_weight _)), (truthy (qs_get_humidity _)),
    (truthy (qs_get_battery_level _));
    cbn; rewrite ?Z.eqb_refl; reflexivity.
Qed.

Lemma filter_iq_sensors_humidity (c : NexiaDataUpdateCoordinator)
    (t : NexiaThermostat) (q : RoomIqState) :
  List.filter (is_iq_sensor (thermostat_id t) (qs_iq_id q) "get_humidity")
    (iq_sensors c t (iq_in t q))
  = if truthy (qs_get_humidity q) then
      [ IqSensor
          (NexiaThermostatIqSensor_init c (iq_in t q) "get_humidity"
             None (Some HUMIDITY) (Some PERCENTAGE) (Some MEASUREMENT)
             None) ]
    else [].
Proof.
  unfold iq_sensors, is_iq_sensor, iq_get_weight, iq_get_humidity,
    iq_get_battery_level.
  destruct (truthy (qs_get_weight _)), (truthy (qs_get_humidity _)),
    (truthy (qs_get_battery_level _));
    cbn; rewrite ?Z.eqb_refl; reflexivity.
Qed.

Lemma filter_iq_sensors_battery (c : NexiaDataUpdateCoordinator)
    (t : NexiaThermostat) (q : RoomIqState) :
  List.filter
    (is_iq_sensor (thermostat_id t) (qs_iq_id q) "get_battery_level")
    (iq_sensors c t (iq_in t q))
  = if truthy (qs_get_battery_level q) then
      [ IqSensor
          (NexiaThermostatIqSensor_init c (iq_in t q) "get_battery_level"
             (Some "room_iq_battery") None (Some PERCENTAGE)
             (Some MEASUREMENT) None) ]
    else [].
Proof.
  unfold iq_sensors, is_iq_sensor, iq_get_weight, iq_get_humidity,
    iq_get_battery_level.
  destruct (truthy (qs_get_weight _)), (truthy (qs_get_humidity _)),
    (truthy (qs_get_battery_level _));
    cbn; rewrite ?Z.eqb_refl; reflexivity.
Qed.
End RoomIq.


(** C5. With distinct thermostat ids and distinct room IQ ids on the
    thermostat, setup returns, and for a room IQ sensor of the snapshot
    and each of the readings weight, humidity and battery level: when the
    reading is falsy (zero, or [None]) no sensor for that reading is among
    what setup returns, and when it is truthy exactly one is. *)
Theorem room_iq_reading_sensor_iff_truthy `{Imports}
    (hass : HomeAssistant) (config_entry : ConfigEntry)
    (c : NexiaDataUpdateCoordinator) (t : NexiaThermostat)
    (q : RoomIqState) :
  coordinator_of hass config_entry = Some c ->
  NoDup (get_thermostat_ids (nexia_home c)) ->
  t ∈ thermostats (nexia_home c) ->
  NoDup (get_room_iq_ids t) ->
  q ∈ room_iqs t ->
  exists es,
    async_setup_entry hass config_entry = Ok es
    /\ List.filter
         (is_iq_sensor (thermostat_id t) (qs_iq_id q) "get_weight") es
       = (if truthy (qs_get_weight q) then
            [ IqSensor
                (NexiaThermostatIqSensor_init c (iq_in t q) "get_weight"
                   (Some "room_iq_weight") None (Some PERCENTAGE)
                   (Some MEASUREMENT) (Some percent_conv)) ]
          else [])
    /\ List.filter
         (is_iq_sensor (thermostat_id t) (qs_iq_id q) "get_humidity") es
       = (if truthy (qs_get_humidity q) then
            [ IqSensor
                (NexiaThermostatIqSensor_init c (iq_in t q) "get_humidity"
                   None (Some HUMIDITY) (Some PERCENTAGE)
                   (Some MEASUREMENT) None) ]
          else [])
    /\ List.filter
         (is_iq_sensor (thermostat_id t) (qs_iq_id q) "get_battery_level")
         es
       = (if truthy (qs_get_battery_level q) then
            [ IqSensor
                (NexiaThermostatIqSensor_init c (iq_in t q)
                   "get_battery_level" (Some "room_iq_battery") None
                   (Some PERCENTAGE) (Some MEASUREMENT) None) ]
          else []).
Proof.
  intros Hc Hnd Ht Hndq Hq.
  destruct (filter_created_iq hass config_entry c t q "get_weight"
              Hc Hnd Ht Hndq Hq) as (es & Hes & Hw).
  destruct (filter_created_iq hass config_entry c t q "get_humidity"
              Hc Hnd Ht Hndq Hq) as (es1 & Hes1 & Hh).
  destruct (filter_created_iq hass config_entry c t q "get_battery_level"
              Hc Hnd Ht Hndq Hq) as (es2 & Hes2 & Hb).
  assert (es1 = es) as -> by congruence.
  assert (es2 = es) as -> by congruence.
  exists es. split; [exact Hes|]. split; [|split].
  - rewrite Hw. apply filter_iq_sensors_weight.
  - rewrite Hh. apply filter_iq_sensors_humidity.
  - rewrite Hb. apply filter_iq_sensors_battery.
Qed.

Lemma room_iq_reading_sensor_iff_truthy_witness :
  exists es,
    @async_setup_entry Sample.imports Sample.hass Sample.config_entry
    = Ok es
    /\ map unique_id_of (List.filter (is_iq_sensor 1 101 "get_weight") es)
       = []
    /\ map unique_id_of (List.filter (is_iq_sensor 1 101 "get_humidity") es)
       = []
    /\ map unique_id_of
         (List.filter (is_iq_sensor 1 101 "get_battery_level") es)
       = [ "101_get_battery_level" ].
Proof.
  destruct (@room_iq_reading_sensor_iff_truthy Sample.imports
              Sample.hass Sample.config_entry Sample.coordinator
              Sample.upstairs Sample.bedroom_iq)
    as (es & Hes & Hw & Hh & Hb);
    [vm_compute; reflexivity | compute_done | left
    | compute_done | right; left |].
  exists es. split; [exact Hes|].
  change (thermostat_id Sample.upstairs) with 1 in *.
  change (qs_iq_id Sample.bedroom_iq) with 101 in *.
  rewrite Hw, Hh, Hb. repeat split; reflexivity.
Defined.

(** C9. With distinct thermostat ids and distinct room IQ ids on the
    thermostat, setup returns, and for every room IQ sensor of the
    snapshot exactly one temperature sensor is among what it returns,
    whatever the sensor's weight, humidity and battery readings and
    whatever the thermostat's capability flags. *)
Theorem room_iq_temperature_sensor_always `{Imports}
    (hass : HomeAssistant) (config_entry : ConfigEntry)
    (c : NexiaDataUpdateCoordinator) (t : NexiaThermostat)
    (q : RoomIqState) :
  coordinator_of hass config_entry = Some c ->
  NoDup (get_thermostat_ids (nexia_home c)) ->
  t ∈ thermostats (nexia_home c) ->
  NoDup (get_room_iq_ids t) ->
  q ∈ room_iqs t ->
  exists es,
    async_setup_entry hass config_entry = Ok es
    /\ List.filter
         (is_iq_sensor (thermostat_id t) (qs_iq_id q) "get_temperature") es
       = [ IqSensor
             (NexiaThermostatIqSensor_init c (iq_in t q) "get_temperature"
                None (Some TEMPERATURE)
                (Some (Temperature (_get_temperature_unit t)))
                (Some MEASUREMENT) None) ].
Proof.
  intros Hc Hnd Ht Hndq Hq.
  destruct (filter_created_iq hass config_entry c t q "get_temperature"
              Hc Hnd Ht Hndq Hq) as (es & Hes & Hfilter).
  exists es. split; [exact Hes|].
  rewrite Hfilter. apply filter_iq_sensors_temperature.
Qed.

Lemma room_iq_temperature_sensor_always_witness :
  exists es,
    @async_setup_entry Sample.imports Sample.hass Sample.config_entry
    = Ok es
    /\ map unique_id_of
         (List.filter (is_iq_sensor 1 101 "get_temperature") es)
       = [ "101_get_temperature" ].
Proof.
  destruct (@room_iq_temperature_sensor_always Sample.imports
              Sample.hass Sample.config_entry Sample.coordinator
              Sample.upstairs Sample.bedroom_iq)
    as (es & Hes & Ht);
    [vm_compute; reflexivity | compute_done | left
    | compute_done | right; left |].
  exists es. split; [exact Hes|].
  change (thermostat_id Sample.upstairs) with 1 in *.
  change (qs_iq_id Sample.bedroom_iq) with 101 in *.
  rewrite Ht. reflexivity.
Defined.



(* ===================================================================== *)
(** ** Which percentage sensors convert *)
(* ===================================================================== *)

(** C10. Setup returns, and among what it returns the room IQ humidity
    and battery sensors have no transform, so that their value is the raw
    reading, rounded only if it is a float, although their unit is
    percent; the room IQ weight sensor and the thermostat's
    relative-humidity sensor have the percentage conversion as transform
    and round what it returns. *)
Theorem room_iq_humidity_battery_not_converted `{Imports}
    (hass : HomeAssistant) (config_entry : ConfigEntry)
    (c : NexiaDataUpdateCoordinator) :
  coordinator_of hass config_entry = Some c ->
  exists es,
    async_setup_entry hass config_entry = Ok es
    /\ Forall percentage_sensor_transform es.
Proof.
  intros Hc. apply (created_Forall _ _ c); [exact Hc|..].
  - intros t. unfold system_sensors.
    destruct (has_variable_speed_compressor t),
      (has_outdoor_temperature t), (has_relative_humidity t);
      simpl; forall_list; intros Hcall;
      solve [discriminate Hcall
            | repeat split; try rewrite native_value_bind; reflexivity].
  - intros t st. unfold zone_sensors. forall_list; exact I.
  - intros t st. unfold iq_sensors.
    destruct (truthy (iq_get_weight _)), (truthy (iq_get_humidity _)),
      (truthy (iq_get_battery_level _));
      simpl; forall_list; unfold percentage_sensor_transform;
      (split; [|split]); intros Hcall;
      solve [discriminate Hcall
            | repeat split; try rewrite native_value_bind; reflexivity].
Qed.

Lemma room_iq_humidity_battery_not_converted_witness :
  exists es,
    @async_setup_entry Sample.imports Sample.hass Sample.config_entry
    = Ok es
    /\ Forall (@percentage_sensor_transform Sample.imports) es.
Proof.
  apply (@room_iq_humidity_battery_not_converted Sample.imports
           Sample.hass Sample.config_entry Sample.coordinator).
  vm_compute. reflexivity.
Defined.

(** On the sample installation: humidity 45 and battery 87 are shown as
    read, weight 0.5 and relative humidity 0.52 are shown as 50.0 and
    52.0. *)
Example sample_percentage_values :
  (es ← @async_setup_entry Sample.imports Sample.hass Sample.config_entry;
   mret (map (fun e => (unique_id_of e, native_value e))
           (List.filter
              (fun e =>
                 match _attr_native_unit_of_measurement (as_sensor e) with
                 | Some PERCENTAGE => true
                 | _ => false
                 end) es)))
  = Ok [ ("1_get_current_compressor_speed", Ok (PyFloat (literal 690 1)));
         ("1_get_requested_compressor_speed", Ok (PyFloat (literal 690 1)));
         ("1_get_relative_humidity", Ok (PyFloat (literal 520 1)));
         ("100_get_weight", Ok (PyFloat (literal 500 1)));
         ("100_get_humidity", Ok (PyInt 45));
         ("101_get_battery_level", Ok (PyInt 87)) ].
Proof. vm_compute. reflexivity. Qed.


(* ===================================================================== *)
(** ** Device metadata of zones and room IQ sensors *)
(* ===================================================================== *)

Section DeviceInfo.
Context `{Imports}.

(** No method of the entity classes assigns to the metadata, the owner or
    the unique id after [__init__]. *)
Lemma step_keeps_identity (st : SensorEntity * HomeAssistant) (call : Call) :
  _attr_device_info (as_thermostat_entity (fst (step st call)))
  = _attr_device_info (as_thermostat_entity (fst st))
  /\ _thermostat (as_thermostat_entity (fst (step st call)))
     = _thermostat (as_thermostat_entity (fst st))
  /\ unique_id_of (fst (step st call)) = unique_id_of (fst st).
Proof.
  destruct st as [e hass], call as [ref| | |]; simpl;
    try (repeat split; reflexivity).
  destruct e as [s|s|s]; repeat split; reflexivity.
Qed.

Lemma run_keeps_identity (calls : list Call)
    (st : SensorEntity * HomeAssistant) :
  _attr_device_info (as_thermostat_entity (fst (run st calls)))
  = _attr_device_info (as_thermostat_entity (fst st))
  /\ _thermostat (as_thermostat_entity (fst (run st calls)))
     = _thermostat (as_thermostat_entity (fst st))
  /\ unique_id_of (fst (run st calls)) = unique_id_of (fst st).
Proof.
  unfold run. revert st.
  induction calls as [|call calls IH]; intros st; simpl.
  - repeat split; reflexivity.
  - destruct (IH (step st call)) as (Hi & Ht & Hu).
    destruct (step_keeps_identity st call) as (Hi' & Ht' & Hu').
    rewrite Hi, Ht, Hu. repeat split; assumption.
Qed.

Lemma zone_entity_device_info (c : NexiaDataUpdateCoordinator)
    (zone : NexiaThermostatZone) (unique_id : string) :
  let info :=
    _attr_device_info (NexiaThermostatZoneEntity_init c zone unique_id) in
  info !! ATTR_IDENTIFIERS
  = Some (DIIdentifiers {[ (DOMAIN, zone_id zone) ]})
  /\ info !! ATTR_NAME = Some (DIStr (zone_get_name zone))
  /\ info !! ATTR_SUGGESTED_AREA = Some (DIStr (zone_get_name zone))
  /\ info !! ATTR_VIA_DEVICE
     = Some (DIVia (DOMAIN, thermostat_id (zone_thermostat zone))).
Proof. repeat split; reflexivity. Qed.

Lemma iq_entity_device_info (c : NexiaDataUpdateCoordinator)
    (iq : NexiaThermostatRoomIq) (unique_id : string) :
  let info :=
    _attr_device_info (NexiaThermostatIqEntity_init c iq unique_id) in
  let parent_name := get_name (iq_thermostat iq) in
  let builtin := String.eqb (iq_get_type iq) "thermostat" in
  info !! ATTR_IDENTIFIERS = Some (DIIdentifiers {[ (DOMAIN, iq_id iq) ]})
  /\ info !! ATTR_NAME
     = Some (DIStr (parent_name +:+ " "
                      +:+ (if builtin then "builtin" else iq_get_name iq)))
  /\ info !! ATTR_SUGGESTED_AREA
     = Some (DIStr (if builtin then parent_name else iq_get_name iq))
  /\ info !! ATTR_VIA_DEVICE
     = Some (DIVia (DOMAIN, thermostat_id (iq_thermostat iq))).
Proof. repeat split; reflexivity. Qed.
End DeviceInfo.

(** C7. After construction the metadata of a zone entity names the zone:
    identifiers hold the zone id, name and suggested area its name; that
    of a room IQ entity names the room sensor: identifiers hold its id,
    the name is the thermostat's name followed by the sensor's name (or
    by "builtin"), the suggested area is the sensor's name (the
    thermostat's for the built-in sensor). In both the parent link holds
    the id of the thermostat the child belongs to, the other fields stay
    those of the thermostat, and whatever methods are called on the
    entity afterwards the metadata, and with it the parent link, stays
    as constructed. *)
Theorem child_device_info_links_parent_thermostat `{Imports}
    (c : NexiaDataUpdateCoordinator) (zone : NexiaThermostatZone)
    (iq : NexiaThermostatRoomIq) (unique_id sensor_call : string)
    (translation_key : option string)
    (sensor_class : option SensorDeviceClass)
    (sensor_unit : option UnitOfMeasurement)
    (state_class : option SensorStateClass)
    (modifier : option (Val -> Result Val))
    (hass : HomeAssistant) (calls : list Call) :
  let zone_info :=
    _attr_device_info (NexiaThermostatZoneEntity_init c zone unique_id) in
  let iq_info :=
    _attr_device_info (NexiaThermostatIqEntity_init c iq unique_id) in
  let zone_sensor :=
    ZoneSensor
      (NexiaThermostatZoneSensor_init c zone sensor_call translation_key
         sensor_class sensor_unit state_class modifier) in
  let iq_sensor :=
    IqSensor
      (NexiaThermostatIqSensor_init c iq sensor_call translation_key
         sensor_class sensor_unit state_class modifier) in
  let builtin := String.eqb (iq_get_type iq) "thermostat" in
  (zone_info !! ATTR_IDENTIFIERS
   = Some (DIIdentifiers {[ (DOMAIN, zone_id zone) ]})
   /\ zone_info !! ATTR_NAME = Some (DIStr (zone_get_name zone))
   /\ zone_info !! ATTR_SUGGESTED_AREA = Some (DIStr (zone_get_name zone))
   /\ zone_info !! ATTR_VIA_DEVICE
      = Some (DIVia (DOMAIN, thermostat_id (zone_thermostat zone)))
   /\ zone_info !! "manufacturer" = Some (DIStr MANUFACTURER)
   /\ zone_info !! "model" = Some (DIStr (get_model (zone_thermostat zone))))
  /\ (iq_info !! ATTR_IDENTIFIERS
      = Some (DIIdentifiers {[ (DOMAIN, iq_id iq) ]})
      /\ iq_info !! ATTR_NAME
         = Some (DIStr (get_name (iq_thermostat iq) +:+ " "
                          +:+ (if builtin then "builtin"
                               else iq_get_name iq)))
      /\ iq_info !! ATTR_SUGGESTED_AREA
         = Some (DIStr (if builtin then get_name (iq_thermostat iq)
                        else iq_get_name iq))
      /\ iq_info !! ATTR_VIA_DEVICE
         = Some (DIVia (DOMAIN, thermostat_id (iq_thermostat iq)))
      /\ iq_info !! "manufacturer" = Some (DIStr MANUFACTURER)
      /\ iq_info !! "model" = Some (DIStr (get_model (iq_thermostat iq))))
  /\ (let e := fst (run (zone_sensor, hass) calls) in
      _attr_device_info (as_thermostat_entity e)
      = _attr_device_info (NexiaThermostatZoneEntity_init c zone
                             (unique_id_of zone_sensor))
      /\ _attr_device_info (as_thermostat_entity e) !! ATTR_VIA_DEVICE
         = Some (DIVia (DOMAIN,
                        thermostat_id (_thermostat (as_thermostat_entity e)))))
  /\ (let e := fst (run (iq_sensor, hass) calls) in
      _attr_device_info (as_thermostat_entity e)
      = _attr_device_info (NexiaThermostatIqEntity_init c iq
                             (unique_id_of iq_sensor))
      /\ _attr_device_info (as_thermostat_entity e) !! ATTR_VIA_DEVICE
         = Some (DIVia (DOMAIN,
                        thermostat_id (_thermostat (as_thermostat_entity e))))).
Proof.
  cbv zeta. split; [|split; [|split]].
  - repeat split; reflexivity.
  - repeat split; reflexivity.
  - destruct (run_keeps_identity calls
                (ZoneSensor
                   (NexiaThermostatZoneSensor_init c zone sensor_call
                      translation_key sensor_class sensor_unit state_class
                      modifier), hass)) as (Hi & Ht & _).
    rewrite Hi, Ht. split; reflexivity.
  - destruct (run_keeps_identity calls
                (IqSensor
                   (NexiaThermostatIqSensor_init c iq sensor_call
                      translation_key sensor_class sensor_unit state_class
                      modifier), hass)) as (Hi & Ht & _).
    rewrite Hi, Ht. split; reflexivity.
Qed.

(** The metadata of the sample zone's temperature sensor after it was
    attached and read. *)
Example sample_zone_device_info :
  let zone := zone_in Sample.upstairs Sample.living_room in
  let e :=
    fst (@run Sample.imports
           (ZoneSensor
              (@NexiaThermostatZoneSensor_init Sample.imports
                 Sample.coordinator zone "get_temperature" None
                 (Some TEMPERATURE) (Some (Temperature FAHRENHEIT))
                 (Some MEASUREMENT) None), Sample.hass)
           [ CallAddedToHass 6%nat; CallAvailable; CallNativeValue ]) in
  _attr_device_info (as_thermostat_entity e)
  = list_to_map
      [ ("configuration_url", DIStr "https://www.mynexia.com");
        ("identifiers", DIIdentifiers {[ ("nexia", 10) ]});
        ("manufacturer", DIStr "Trane");
        ("model", DIStr "XL1050");
        ("name", DIStr "Living room");
        ("suggested_area", DIStr "Living room");
        ("sw_version", DIStr "5.9.1");
        ("via_device", DIVia ("nexia", 1)) ]
  /\ _on_remove (as_thermostat_entity e)
     = [ CoordinatorRemover 6%nat;
         DispatcherRemover ("NEXIA_CLIMATE_THERMOSTAT_UPDATE-1", 6%nat);
         DispatcherRemover ("NEXIA_CLIMATE_ZONE_UPDATE-10", 6%nat) ].
Proof. split; vm_compute; reflexivity. Qed.


(* ===================================================================== *)
(** ** Update notifications *)
(* ===================================================================== *)

Lemma dash_free_split (a b x y : string) :
  dash_free a = true -> dash_free b = true ->
  a +:+ "-" +:+ x = b +:+ "-" +:+ y ->
  a = b /\ x = y.
Proof.
  revert b. induction a as [|ch a IH]; intros [|ch' b] Ha Hb Heq.
  - change (String "-"%char x = String "-"%char y) in Heq.
    injection Heq as ->. split; reflexivity.
  - change (String "-"%char x = String ch' (b +:+ "-" +:+ y)) in Heq.
    injection Heq as <- _. discriminate Hb.
  - change (String ch (a +:+ "-" +:+ x) = String "-"%char y) in Heq.
    injection Heq as -> _. discriminate Ha.
  - change (String ch (a +:+ "-" +:+ x) = String ch' (b +:+ "-" +:+ y))
      in Heq.
    injection Heq as -> Heq. simpl in Ha, Hb.
    apply andb_true_iff in Ha as [_ Ha], Hb as [_ Hb].
    destruct (IH b Ha Hb Heq) as [-> ->]. split; reflexivity.
Qed.

Lemma connect_send (hass : HomeAssistant) (signal signal' : string)
    (ref : EntityRef) :
  async_dispatcher_send
    (fst (async_dispatcher_connect hass signal ref)) signal'
  = async_dispatcher_send hass signal'
    ++ (if decide (signal = signal') then [ref] else []).
Proof.
  unfold async_dispatcher_send, async_dispatcher_connect. simpl.
  rewrite lookup_insert. destruct (decide (signal = signal')) as [->|].
  - reflexivity.
  - rewrite app_nil_r. reflexivity.
Qed.

Section Notifications.
Context `{Imports}.

Lemma channel_inj (k k' : Kind) (i i' : Z) :
  distinct_signals = true ->
  channel k i = channel k' i' -> k = k' /\ i = i'.
Proof.
  unfold distinct_signals, channel. intros Hd Heq.
  repeat (apply andb_true_iff in Hd as [Hd ?]).
  assert (Hfree : forall q, dash_free (signal_of q) = true)
    by (intros []; assumption).
  destruct (dash_free_split _ _ _ _ (Hfree k) (Hfree k') Heq) as [Hs Hi].
  split.
  - destruct k, k'; simpl in Hs; try reflexivity; exfalso;
      repeat match goal with
             | Hn : negb (String.eqb ?a ?b) = true |- _ =>
                 apply negb_true_iff, String.eqb_neq in Hn
             end; congruence.
  - apply (inj pretty). exact Hi.
Qed.

(** The dispatcher table after one entity attached itself. *)
Lemma added_send (ref : EntityRef) (e : SensorEntity)
    (hass : HomeAssistant) (signal : string) :
  async_dispatcher_send (snd (async_added_to_hass ref e hass)) signal
  = async_dispatcher_send hass signal
    ++ concat (map (fun ki =>
                      if decide (channel ki.1 ki.2 = signal) then [ref]
                      else [])
                 (subscribed e)).
Proof.
  destruct e as [s|s|s].
  - change (snd (async_added_to_hass ref (ThermostatSensor s) hass))
      with (fst (async_dispatcher_connect hass (thermostat_signal s) ref)).
    rewrite connect_send. f_equal. simpl. rewrite app_nil_r. reflexivity.
  - change (snd (async_added_to_hass ref (ZoneSensor s) hass))
      with (fst (async_dispatcher_connect
                   (fst (async_dispatcher_connect hass
                           (thermostat_signal s) ref))
                   (zone_signal s) ref)).
    rewrite !connect_send, <- app_assoc. f_equal. simpl.
    rewrite app_nil_r. reflexivity.
  - change (snd (async_added_to_hass ref (IqSensor s) hass))
      with (fst (async_dispatcher_connect
                   (fst (async_dispatcher_connect hass
                           (thermostat_signal s) ref))
                   (iq_signal s) ref)).
    rewrite !connect_send, <- app_assoc. f_equal. simpl.
    rewrite app_nil_r. reflexivity.
Qed.

Lemma attach_from_cons (ref : EntityRef) (e : SensorEntity)
    (es : list SensorEntity) (hass : HomeAssistant) :
  snd (attach_from ref (e :: es) hass)
  = snd (attach_from (S ref) es (snd (async_added_to_hass ref e hass))).
Proof.
  simpl. destruct (async_added_to_hass ref e hass) as [e1 hass1]. simpl.
  destruct (attach_from (S ref) es hass1) as [es2 hass2]. reflexivity.
Qed.

(** After the platform attached [es] with handles [n], [n + 1], ..., a
    signal reaches the old listeners and the new entities listening on
    it. *)
Lemma attach_from_send (es : list SensorEntity) (n : nat)
    (hass : HomeAssistant) (signal : string) (r : EntityRef) :
  r ∈ async_dispatcher_send (snd (attach_from n es hass)) signal
  <-> r ∈ async_dispatcher_send hass signal
      \/ exists j e ki,
           r = (n + j)%nat /\ es !! j = Some e
           /\ ki ∈ subscribed e /\ channel ki.1 ki.2 = signal.
Proof.
  revert n hass. induction es as [|e es IH]; intros n hass.
  - simpl. split; [left; assumption|].
    intros [Hr | (j & e & ki & _ & Hl & _)]; [assumption | discriminate Hl].
  - rewrite attach_from_cons, IH, added_send, elem_of_app. split.
    + intros [[Hr | Hr] | (j & e1 & ki & -> & Hl & Hki & Hch)].
      * left. exact Hr.
      * right. exists 0%nat, e.
        apply list_elem_of_In, in_concat in Hr as (l & Hl & Hr).
        apply in_map_iff in Hl as (ki & <- & Hki).
        destruct (decide (channel ki.1 ki.2 = signal)) as [Hch|];
          [|destruct Hr].
        destruct Hr as [<- | []]. exists ki.
        repeat split; [lia | apply list_elem_of_In, Hki | exact Hch].
      * right. exists (S j), e1, ki. repeat split; [lia | assumption..].
    + intros [Hr | (j & e1 & ki & -> & Hl & Hki & Hch)].
      * left. left. exact Hr.
      * destruct j as [|j]; simpl in Hl.
        -- injection Hl as ->. left. right.
           apply list_elem_of_In, in_concat.
           exists [(n + 0)%nat]. split; [|left; reflexivity].
           apply in_map_iff. exists ki.
           split; [|apply list_elem_of_In, Hki].
           rewrite decide_True by exact Hch. f_equal. lia.
        -- right. exists j, e1, ki. repeat split; [lia | assumption..].
Qed.
End Notifications.

(** C8. Let the three signal names be distinct and free of ["-"]. After
    the entities of a platform have attached themselves to an
    application without listeners, publishing on the channel of a kind
    (thermostat, zone, room IQ) and an object id calls the state refresh
    of exactly the entities that subscribed to that kind and id: a
    thermostat-level entity subscribes to its thermostat's channel, a
    zone or room IQ entity to its thermostat's channel and to the channel
    of its own zone or room sensor. An entity without a subscription to
    that kind and id, be it on another id or on the same id in another
    kind's namespace, is not refreshed. The three [_signal_..._update]
    methods publish on the channel of their kind and of the object's
    id. *)
Theorem publish_refreshes_exactly_subscribers `{Imports}
    (d : gmap string (gmap string NexiaDataUpdateCoordinator))
    (es : list SensorEntity) (k : Kind) (i : Z) (r : EntityRef) :
  distinct_signals = true ->
  let hass :=
    snd (attach_from 0%nat es {| data := d; dispatcher := ∅ |}) in
  (r ∈ async_dispatcher_send hass (channel k i)
   <-> exists e, es !! r = Some e /\ (k, i) ∈ subscribed e)
  /\ (forall e, es !! r = Some e -> (k, i) ∉ subscribed e ->
                r ∉ async_dispatcher_send hass (channel k i))
  /\ (forall self : NexiaThermostatEntity,
         _signal_thermostat_update self hass
         = async_dispatcher_send hass
             (channel KThermostat (thermostat_id (_thermostat self))))
  /\ (forall self : NexiaThermostatZoneEntity,
         _signal_zone_update self hass
         = async_dispatcher_send hass (channel KZone (zone_id (_zone self))))
  /\ (forall self : NexiaThermostatIqEntity,
         _signal_iq_update self hass
         = async_dispatcher_send hass (channel KRoomIq (iq_id (_iq self)))).
Proof.
  intros Hd hass.
  assert (Hiff : r ∈ async_dispatcher_send hass (channel k i)
                 <-> exists e, es !! r = Some e /\ (k, i) ∈ subscribed e).
  { unfold hass. rewrite attach_from_send. split.
    - intros [Hr | (j & e & [k' i'] & -> & Hl & Hki & Hch)].
      + unfold async_dispatcher_send in Hr. simpl in Hr.
        rewrite lookup_empty in Hr. inversion Hr.
      + destruct (channel_inj _ _ _ _ Hd Hch) as [Hk Hi].
        simpl in Hk, Hi. subst k' i'. exists e. split; assumption.
    - intros (e & Hl & Hki). right. exists r, e, (k, i).
      repeat split; assumption. }
  split; [exact Hiff|]. split; [|repeat split; reflexivity].
  intros e Hl Hnot Hr. apply Hiff in Hr as (e' & Hl' & Hki).
  assert (e' = e) as -> by congruence. exact (Hnot Hki).
Qed.

Lemma publish_refreshes_exactly_subscribers_witness :
  let hass :=
    snd (@attach_from Sample.imports 0%nat Sample.entities Sample.hass) in
  6%nat ∈ async_dispatcher_send hass (@channel Sample.imports KZone 10)
  /\ 0%nat ∉ async_dispatcher_send hass (@channel Sample.imports KZone 10).
Proof.
  split.
  - apply (proj1 (@publish_refreshes_exactly_subscribers Sample.imports
                    (data Sample.hass) Sample.entities KZone 10 6%nat
                    eq_refl)).
    eexists. split; [vm_compute; reflexivity|]. right. left.
  - apply (proj1 (proj2 (@publish_refreshes_exactly_subscribers
                           Sample.imports (data Sample.hass)
                           Sample.entities KZone 10 0%nat eq_refl))
             (ThermostatSensor
                (@NexiaThermostatSensor_init Sample.imports
                   Sample.coordinator Sample.upstairs "get_system_status"
                   (Some "system_status") None None None None))).
    + vm_compute. reflexivity.
    + intros Hin. apply list_elem_of_In in Hin.
      destruct Hin as [Heq | []]. discriminate Heq.
Defined.

(** On the sample installation: a zone update reaches the three sensors
    of the zone, a thermostat update all sensors of that thermostat, and
    the room IQ channel of the same id as the zone nobody. *)
Example sample_publish :
  let hass :=
    snd (@attach_from Sample.imports 0%nat Sample.entities Sample.hass) in
  async_dispatcher_send hass (@channel Sample.imports KZone 10)
  = [6; 7; 8]%nat
  /\ async_dispatcher_send hass (@channel Sample.imports KThermostat 2)
     = [14; 15]%nat
  /\ async_dispatcher_send hass (@channel Sample.imports KRoomIq 101)
     = [12; 13]%nat
  /\ async_dispatcher_send hass (@channel Sample.imports KRoomIq 10) = [].
Proof. repeat split; vm_compute; reflexivity. Qed.


(* ===================================================================== *)
(** ** Further properties: failures *)
(* ===================================================================== *)

(** X1. Setup raises [KeyError] when [hass.data] has no entry for the
    domain, and when the domain's table has none for the config entry,
    whatever else the application holds: the coordinator is looked up
    before any device is touched. *)
Theorem async_setup_entry_raises_without_coordinator `{Imports}
    (hass : HomeAssistant) (config_entry : ConfigEntry) :
  (data hass !! DOMAIN = None ->
   async_setup_entry hass config_entry = Raise KeyError)
  /\ (forall domain_data,
         data hass !! DOMAIN = Some domain_data ->
         domain_data !! entry_id config_entry = None ->
         async_setup_entry hass config_entry = Raise KeyError).
Proof.
  unfold async_setup_entry, dict_getitem. split.
  - intros ->. reflexivity.
  - intros domain_data -> Hc. unfold_monad. rewrite Hc. reflexivity.
Qed.

Lemma async_setup_entry_raises_without_coordinator_witness :
  @async_setup_entry Sample.imports
    {| data := ∅; dispatcher := ∅ |} Sample.config_entry
  = Raise KeyError
  /\ @async_setup_entry Sample.imports Sample.hass
       {| entry_id := "entry-2" |}
     = Raise KeyError.
Proof.
  split.
  - apply (proj1 (@async_setup_entry_raises_without_coordinator
                    Sample.imports {| data := ∅; dispatcher := ∅ |}
                    Sample.config_entry)).
    reflexivity.
  - apply (proj2 (@async_setup_entry_raises_without_coordinator
                    Sample.imports Sample.hass {| entry_id := "entry-2" |})
             {[ "entry-1" := Sample.coordinator ]});
      vm_compute; reflexivity.
Defined.

(** X2. [native_value] handles no exception: what the accessor raises
    (also the [AttributeError] of a name the device does not have) is
    raised by [native_value], and so is what the transform raises on the
    value read. *)
Theorem native_value_propagates_exceptions (e : SensorEntity) (ex : Exc) :
  (owner_getattr_call e (_call (as_sensor e)) = Raise ex ->
   native_value e = Raise ex)
  /\ (forall raw f,
         owner_getattr_call e (_call (as_sensor e)) = Ok raw ->
         _modifier (as_sensor e) = Some f ->
         f raw = Raise ex ->
         native_value e = Raise ex).
Proof.
  split.
  - intros Hraw. rewrite native_value_bind, Hraw. reflexivity.
  - intros raw f Hraw Hm Hf. rewrite native_value_bind, Hraw, Hm.
    unfold_monad. simpl. rewrite Hf. reflexivity.
Qed.

Lemma native_value_propagates_exceptions_witness :
  native_value
    (ThermostatSensor
       (@NexiaThermostatSensor_init Sample.imports Sample.coordinator
          Sample.downstairs "get_outdoor_temperature"
          (Some "outdoor_temperature") (Some TEMPERATURE)
          (Some (Temperature CELSIUS)) (Some MEASUREMENT) None))
  = Raise AttributeError
  /\ native_value
       (ZoneSensor
          (@NexiaThermostatZoneSensor_init Sample.imports
             Sample.coordinator
             (zone_in Sample.upstairs Sample.living_room) "get_status"
             (Some "zone_status") None None None
             (Some Sample.percent_conv_x100)))
     = Raise TypeError.
Proof.
  split.
  - apply (proj1 (native_value_propagates_exceptions _ AttributeError)).
    vm_compute. reflexivity.
  - apply (proj2 (native_value_propagates_exceptions _ TypeError)
             (PyStr "Idle") Sample.percent_conv_x100); reflexivity.
Defined.

(* ===================================================================== *)
(** ** Further properties: what setup creates *)
(* ===================================================================== *)

Section MoreCounting.
Context `{Imports}.

Lemma filter_thermostat_sensor_other (c : NexiaDataUpdateCoordinator)
    (t : NexiaThermostat) (tid : Z) (call : string) :
  thermostat_id t <> tid ->
  List.filter (is_thermostat_sensor tid call) (system_sensors c t) = [].
Proof.
  intros Hne. apply filter_none.
  eapply Forall_impl; [apply system_sensors_owner|].
  intros e (s & -> & Ht). unfold is_thermostat_sensor. rewrite Ht.
  apply Z.eqb_neq in Hne. rewrite Hne. reflexivity.
Qed.

(** With distinct thermostat ids, the thermostat-level sensors selected
    for [t] by accessor name are those among the system sensors of [t]. *)
Lemma filter_created_thermostat_sensor (hass : HomeAssistant)
    (config_entry : ConfigEntry) (c : NexiaDataUpdateCoordinator)
    (t : NexiaThermostat) (call : string) :
  coordinator_of hass config_entry = Some c ->
  NoDup (get_thermostat_ids (nexia_home c)) ->
  t ∈ thermostats (nexia_home c) ->
  exists es,
    async_setup_entry hass config_entry = Ok es
    /\ List.filter (is_thermostat_sensor (thermostat_id t) call) es
       = List.filter (is_thermostat_sensor (thermostat_id t) call)
           (system_sensors c t).
Proof.
  intros Hc Hnd Ht.
  destruct (filter_created_single hass config_entry c t
              (is_thermostat_sensor (thermostat_id t) call) Hc Hnd Ht)
    as (es & Hes & Hfilter).
  - intros t' Hne. rewrite filter_thermostat_level by reflexivity.
    apply filter_thermostat_sensor_other, Hne.
  - exists es. split; [exact Hes|].
    rewrite Hfilter. apply filter_thermostat_level; reflexivity.
Qed.

Lemma filter_zone_sensors_other (c : NexiaDataUpdateCoordinator)
    (t : NexiaThermostat) (zone : NexiaThermostatZone) (tid zid : Z) :
  thermostat_id (zone_thermostat zone) <> tid \/ zone_id zone <> zid ->
  List.filter (is_zone_sensor tid zid) (zone_sensors c t zone) = [].
Proof.
  intros Hne. unfold zone_sensors, is_zone_sensor. cbn.
  destruct Hne as [Hne|Hne]; apply Z.eqb_neq in Hne.
  - fold (zone_id zone). rewrite Hne. reflexivity.
  - fold (zone_id zone). rewrite Hne, andb_false_r. reflexivity.
Qed.

Lemma filter_zone_sensors_same (c : NexiaDataUpdateCoordinator)
    (t : NexiaThermostat) (st : ZoneState) :
  List.filter (is_zone_sensor (thermostat_id t) (zs_zone_id st))
    (zone_sensors c t (zone_in t st))
  = zone_sensors c t (zone_in t st).
Proof.
  unfold zone_sensors, is_zone_sensor. cbn. rewrite !Z.eqb_refl.
  reflexivity.
Qed.

(** A selection of zone sensors looks at the zone loop only. *)
Lemma filter_zone_level (c : NexiaDataUpdateCoordinator)
    (t : NexiaThermostat) (f : SensorEntity -> bool) :
  (forall s, f (ThermostatSensor s) = false) ->
  (forall s, f (IqSensor s) = false) ->
  List.filter f (thermostat_entities c t)
  = concat (map (fun st =>
                   List.filter f
                     (zone_sensors c t
                        (zone_in t (first_by_id zs_zone_id (zones t) st))))
              (zones t)).
Proof.
  intros Ht Hq. unfold thermostat_entities.
  rewrite !List.filter_app.
  rewrite (filter_none f (system_sensors c t)).
  - rewrite (filter_concat_none f
               (fun st => iq_sensors c t
                            (iq_in t (first_by_id qs_iq_id
                                        (room_iqs t) st)))).
    + simpl. rewrite app_nil_r, <- concat_filter_map, map_map.
      reflexivity.
    + intros st _. apply filter_none.
      eapply Forall_impl; [apply iq_sensors_owner|].
      intros e (s & -> & _). apply Hq.
  - eapply Forall_impl; [apply system_sensors_owner|].
    intros e (s & -> & _). apply Ht.
Qed.

Lemma length_concat_map {A B} (f : A -> list B) (l : list A) :
  length (concat (map f l)) = list_sum (map (fun x => length (f x)) l).
Proof.
  induction l as [|x l IH]; simpl; [reflexivity|].
  rewrite length_app, IH. reflexivity.
Qed.

Lemma list_sum_map_const {A} (f : A -> nat) (k : nat) (l : list A) :
  (forall x, f x = k) -> list_sum (map f l) = (k * length l)%nat.
Proof.
  intros Hf. induction l as [|x l IH]; simpl; [lia|].
  rewrite Hf, IH. lia.
Qed.

Lemma length_system_sensors (c : NexiaDataUpdateCoordinator)
    (t : NexiaThermostat) :
  length (system_sensors c t)
  = (2 + 2 * Nat.b2n (has_variable_speed_compressor t)
     + Nat.b2n (has_outdoor_temperature t)
     + Nat.b2n (has_relative_humidity t))%nat.
Proof.
  unfold system_sensors.
  destruct (has_variable_speed_compressor t),
    (has_outdoor_temperature t), (has_relative_humidity t); reflexivity.
Qed.

Lemma length_iq_sensors (c : NexiaDataUpdateCoordinator)
    (t : NexiaThermostat) (st : RoomIqState) :
  length (iq_sensors c t (iq_in t st)) = iq_sensor_count st.
Proof.
  unfold iq_sensors, iq_sensor_count, iq_get_weight, iq_get_humidity,
    iq_get_battery_level. simpl.
  destruct (truthy (qs_get_weight st)), (truthy (qs_get_humidity st)),
    (truthy (qs_get_battery_level st)); reflexivity.
Qed.
End MoreCounting.

(** X3. With distinct thermostat ids, setup creates for every thermostat
    of the snapshot exactly one system-status sensor and exactly one
    air-cleaner-mode sensor, whatever its capability flags; exactly one
    outdoor-temperature sensor if the thermostat has an outdoor
    temperature and none otherwise; exactly one relative-humidity sensor
    if it has a relative humidity and none otherwise. The two status
    sensors have no unit, device class, state class or transform. *)
Theorem thermostat_status_sensors_always_created `{Imports}
    (hass : HomeAssistant) (config_entry : ConfigEntry)
    (c : NexiaDataUpdateCoordinator) (t : NexiaThermostat) :
  coordinator_of hass config_entry = Some c ->
  NoDup (get_thermostat_ids (nexia_home c)) ->
  t ∈ thermostats (nexia_home c) ->
  exists es,
    async_setup_entry hass config_entry = Ok es
    /\ List.filter
         (is_thermostat_sensor (thermostat_id t) "get_system_status") es
       = [ ThermostatSensor
             (NexiaThermostatSensor_init c t "get_system_status"
                (Some "system_status") None None None None) ]
    /\ List.filter
         (is_thermostat_sensor (thermostat_id t) "get_air_cleaner_mode") es
       = [ ThermostatSensor
             (NexiaThermostatSensor_init c t "get_air_cleaner_mode"
                (Some "air_cleaner_mode") None None None None) ]
    /\ List.filter
         (is_thermostat_sensor (thermostat_id t) "get_outdoor_temperature")
         es
       = (if has_outdoor_temperature t then
            [ ThermostatSensor
                (NexiaThermostatSensor_init c t "get_outdoor_temperature"
                   (Some "outdoor_temperature") (Some TEMPERATURE)
                   (Some (Temperature (_get_temperature_unit t)))
                   (Some MEASUREMENT) None) ]
          else [])
    /\ List.filter
         (is_thermostat_sensor (thermostat_id t) "get_relative_humidity")
         es
       = (if has_relative_humidity t then
            [ ThermostatSensor
                (NexiaThermostatSensor_init c t "get_relative_humidity"
                   None (Some HUMIDITY) (Some PERCENTAGE)
                   (Some MEASUREMENT) (Some percent_conv)) ]
          else []).
Proof.
  intros Hc Hnd Ht.
  destruct (filter_created_thermostat_sensor hass config_entry c t
              "get_system_status" Hc Hnd Ht) as (es & Hes & H1).
  destruct (filter_created_thermostat_sensor hass config_entry c t
              "get_air_cleaner_mode" Hc Hnd Ht) as (es2 & Hes2 & H2).
  destruct (filter_created_thermostat_sensor hass config_entry c t
              "get_outdoor_temperature" Hc Hnd Ht) as (es3 & Hes3 & H3).
  destruct (filter_created_thermostat_sensor hass config_entry c t
              "get_relative_humidity" Hc Hnd Ht) as (es4 & Hes4 & H4).
  assert (es2 = es) as -> by congruence.
  assert (es3 = es) as -> by congruence.
  assert (es4 = es) as -> by congruence.
  exists es. split; [exact Hes|].
  rewrite H1, H2, H3, H4. clear.
  unfold system_sensors, is_thermostat_sensor.
  destruct (has_variable_speed_compressor t),
    (has_outdoor_temperature t), (has_relative_humidity t);
    cbn; rewrite !Z.eqb_refl; repeat split; reflexivity.
Qed.

Lemma thermostat_status_sensors_always_created_witness :
  exists es,
    @async_setup_entry Sample.imports Sample.hass Sample.config_entry
    = Ok es
    /\ map unique_id_of
         (List.filter (is_thermostat_sensor 2 "get_system_status") es)
       = [ "2_get_system_status" ]
    /\ List.filter (is_thermostat_sensor 2 "get_outdoor_temperature") es
       = [].
Proof.
  destruct (@thermostat_status_sensors_always_created Sample.imports
              Sample.hass Sample.config_entry Sample.coordinator
              Sample.downstairs)
    as (es & Hes & Hs & _ & Ho & _);
    [vm_compute; reflexivity | compute_done | right; left |].
  exists es. split; [exact Hes|].
  change (thermostat_id Sample.downstairs) with 2 in *.
  rewrite Hs, Ho. split; reflexivity.
Defined.

(** X4. With distinct thermostat ids and distinct zone ids on the
    thermostat, setup creates for every zone exactly three sensors, in
    this order: temperature (a measurement in the thermostat's unit),
    zone status and setpoint status (no unit, no transform). *)
Theorem zone_sensors_three_per_zone `{Imports}
    (hass : HomeAssistant) (config_entry : ConfigEntry)
    (c : NexiaDataUpdateCoordinator) (t : NexiaThermostat)
    (z : ZoneState) :
  coordinator_of hass config_entry = Some c ->
  NoDup (get_thermostat_ids (nexia_home c)) ->
  t ∈ thermostats (nexia_home c) ->
  NoDup (get_zone_ids t) ->
  z ∈ zones t ->
  exists es,
    async_setup_entry hass config_entry = Ok es
    /\ List.filter (is_zone_sensor (thermostat_id t) (zs_zone_id z)) es
       = [ ZoneSensor
             (NexiaThermostatZoneSensor_init c (zone_in t z)
                "get_temperature" None (Some TEMPERATURE)
                (Some (Temperature (_get_temperature_unit t)))
                (Some MEASUREMENT) None);
           ZoneSensor
             (NexiaThermostatZoneSensor_init c (zone_in t z) "get_status"
                (Some "zone_status") None None None None);
           ZoneSensor
             (NexiaThermostatZoneSensor_init c (zone_in t z)
                "get_setpoint_status" (Some "zone_setpoint_status")
                None None None None) ].
Proof.
  intros Hc Hnd Ht Hndz Hz.
  destruct (filter_created_single hass config_entry c t
              (is_zone_sensor (thermostat_id t) (zs_zone_id z))
              Hc Hnd Ht) as (es & Hes & Hfilter).
  - intros t' Hne. rewrite filter_zone_level by reflexivity.
    apply concat_map_none. intros st _.
    apply filter_zone_sensors_other. left. exact Hne.
  - exists es. split; [exact Hes|]. rewrite Hfilter.
    rewrite filter_zone_level by reflexivity.
    rewrite (map_ext_in _
               (fun st =>
                  List.filter
                    (is_zone_sensor (thermostat_id t) (zs_zone_id z))
                    (zone_sensors c t (zone_in t st)))).
    2:{ intros st Hst.
        rewrite first_by_id_NoDup;
          [reflexivity | exact Hndz | apply list_elem_of_In, Hst]. }
    rewrite (concat_map_single zs_zone_id (zones t) z
               (fun st =>
                  List.filter
                    (is_zone_sensor (thermostat_id t) (zs_zone_id z))
                    (zone_sensors c t (zone_in t st))) Hndz Hz).
    + rewrite filter_zone_sensors_same. reflexivity.
    + intros st _ Hne. apply filter_zone_sensors_other. right. exact Hne.
Qed.

Lemma zone_sensors_three_per_zone_witness :
  exists es,
    @async_setup_entry Sample.imports Sample.hass Sample.config_entry
    = Ok es
    /\ map unique_id_of (List.filter (is_zone_sensor 1 10) es)
       = [ "10_get_temperature"; "10_get_status";
           "10_get_setpoint_status" ].
Proof.
  destruct (@zone_sensors_three_per_zone Sample.imports
              Sample.hass Sample.config_entry Sample.coordinator
              Sample.upstairs Sample.living_room)
    as (es & Hes & Hz);
    [vm_compute; reflexivity | compute_done | left
    | compute_done | left |].
  exists es. split; [exact Hes|].
  change (thermostat_id Sample.upstairs) with 1 in *.
  change (zs_zone_id Sample.living_room) with 10 in *.
  rewrite Hz. reflexivity.
Defined.

(** X5. With distinct thermostat ids and distinct room IQ ids on each
    thermostat, the number of entities setup creates is the sum over
    the thermostats of: 2, plus 2 with a variable-speed compressor, plus
    1 with an outdoor temperature, plus 1 with a relative humidity, plus
    3 per zone, plus per room IQ sensor 1 and 1 more for each truthy
    reading among weight, humidity and battery level. An empty snapshot
    gives no entity. *)
Theorem async_setup_entry_entity_count `{Imports}
    (hass : HomeAssistant) (config_entry : ConfigEntry)
    (c : NexiaDataUpdateCoordinator) :
  coordinator_of hass config_entry = Some c ->
  NoDup (get_thermostat_ids (nexia_home c)) ->
  Forall (fun t => NoDup (get_room_iq_ids t)) (thermostats (nexia_home c)) ->
  exists es,
    async_setup_entry hass config_entry = Ok es
    /\ length es
       = list_sum (map thermostat_sensor_count (thermostats (nexia_home c)))
    /\ (thermostats (nexia_home c) = [] -> es = []).
Proof.
  intros Hc Hnd Hq. eexists.
  split; [apply (async_setup_entry_distinct _ _ c); assumption|]. split.
  - rewrite length_concat_map. f_equal. apply map_ext_in.
    intros t Ht. apply list_elem_of_In in Ht.
    pose proof (proj1 (Forall_forall _ _) Hq t Ht) as Hndq.
    unfold thermostat_entities, thermostat_sensor_count.
    rewrite !length_app, !length_concat_map, length_system_sensors.
    rewrite (map_ext_in _ iq_sensor_count).
    2:{ intros st Hst.
        rewrite first_by_id_NoDup;
          [apply length_iq_sensors | exact Hndq
          | apply list_elem_of_In, Hst]. }
    rewrite (list_sum_map_const _ 3%nat (zones t)) by reflexivity.
    lia.
  - intros ->. reflexivity.
Qed.

Lemma async_setup_entry_entity_count_witness :
  exists es,
    @async_setup_entry Sample.imports Sample.hass Sample.config_entry
    = Ok es
    /\ length es = 16%nat.
Proof.
  destruct (@async_setup_entry_entity_count Sample.imports Sample.hass
              Sample.config_entry Sample.coordinator)
    as (es & Hes & Hlen & _);
    [vm_compute; reflexivity | compute_done
    | repeat constructor; compute_done |].
  exists es. split; [exact Hes|]. rewrite Hlen. reflexivity.
Defined.

(* ===================================================================== *)
(** ** Further properties: unique ids *)
(* ===================================================================== *)

Lemma underscore_free_split (a b x y : string) :
  underscore_free a = true -> underscore_free b = true ->
  a +:+ "_" +:+ x = b +:+ "_" +:+ y ->
  a = b /\ x = y.
Proof.
  revert b. induction a as [|ch a IH]; intros [|ch' b] Ha Hb Heq.
  - change (String "_"%char x = String "_"%char y) in Heq.
    injection Heq as ->. split; reflexivity.
  - change (String "_"%char x = String ch' (b +:+ "_" +:+ y)) in Heq.
    injection Heq as <- _. discriminate Hb.
  - change (String ch (a +:+ "_" +:+ x) = String "_"%char y) in Heq.
    injection Heq as -> _. discriminate Ha.
  - change (String ch (a +:+ "_" +:+ x) = String ch' (b +:+ "_" +:+ y))
      in Heq.
    injection Heq as -> Heq. simpl in Ha, Hb.
    apply andb_true_iff in Ha as [_ Ha], Hb as [_ Hb].
    destruct (IH b Ha Hb Heq) as [-> ->]. split; reflexivity.
Qed.

Lemma pretty_N_char_underscore_free (x : N) :
  Ascii.eqb (pretty_N_char x) "_"%char = false.
Proof. unfold pretty_N_char. repeat case_match; reflexivity. Qed.

Lemma pretty_N_go_underscore_free (x : N) (s : string) :
  underscore_free s = true -> underscore_free (pretty_N_go x s) = true.
Proof.
  revert s. induction (N.lt_wf_0 x) as [x _ IH]; intros s Hs.
  destruct (decide (0 < x)%N) as [Hx|Hx].
  - rewrite pretty_N_go_step by exact Hx.
    apply IH; [apply N.div_lt; [exact Hx | reflexivity]|].
    simpl. rewrite pretty_N_char_underscore_free. exact Hs.
  - assert (x = 0%N) as -> by lia. rewrite pretty_N_go_0. exact Hs.
Qed.

Lemma str_int_underscore_free (i : Z) : underscore_free (str_int i) = true.
Proof.
  assert (HN : forall n : N, underscore_free (pretty n) = true).
  { intros n. unfold pretty, pretty_N.
    destruct (decide (n = 0%N)); [reflexivity|].
    apply pretty_N_go_underscore_free. reflexivity. }
  unfold str_int, pretty, pretty_Z. destruct i as [|p|p].
  - reflexivity.
  - apply HN.
  - change (underscore_free (String "-"%char (pretty (Npos p))) = true).
    simpl. apply HN.
Qed.

(** [f"{id}_{call}"] determines the id and the accessor name. *)
Lemma unique_id_format_inj (i j : Z) (a b : string) :
  str_int i +:+ "_" +:+ a = str_int j +:+ "_" +:+ b -> i = j /\ a = b.
Proof.
  intros Heq.
  destruct (underscore_free_split _ _ _ _ (str_int_underscore_free i)
              (str_int_underscore_free j) Heq) as [Hi Ha].
  split; [apply (inj pretty), Hi | exact Ha].
Qed.

(** X6. Among the entities that setup creates, two have the same unique
    id exactly when they have the same owner id and the same accessor
    name: the id and the name can be read back from
    [f"{owner_id}_{accessor_name}"]. *)
Theorem unique_id_same_iff_same_owner_id_and_accessor `{Imports}
    (hass : HomeAssistant) (config_entry : ConfigEntry)
    (c : NexiaDataUpdateCoordinator) :
  coordinator_of hass config_entry = Some c ->
  exists es,
    async_setup_entry hass config_entry = Ok es
    /\ forall e1 e2,
        e1 ∈ es -> e2 ∈ es ->
        (unique_id_of e1 = unique_id_of e2
         <-> owner_id e1 = owner_id e2 /\ call_of e1 = call_of e2).
Proof.
  intros Hc.
  destruct (created_Forall hass config_entry c _ Hc
              (system_sensors_unique_id c)
              (fun t st => zone_sensors_unique_id c t (zone_in t st))
              (fun t st => iq_sensors_unique_id c t (iq_in t st)))
    as (es & Hes & Hall).
  exists es. split; [exact Hes|]. intros e1 e2 H1 H2.
  rewrite (proj1 (Forall_forall _ _) Hall e1 H1),
    (proj1 (Forall_forall _ _) Hall e2 H2).
  unfold call_of. split.
  - apply unique_id_format_inj.
  - intros [-> ->]. reflexivity.
Qed.

Lemma unique_id_same_iff_same_owner_id_and_accessor_witness :
  exists es,
    @async_setup_entry Sample.imports Sample.hass Sample.config_entry
    = Ok es
    /\ forall e1 e2,
        e1 ∈ es -> e2 ∈ es ->
        (unique_id_of e1 = unique_id_of e2
         <-> owner_id e1 = owner_id e2 /\ call_of e1 = call_of e2).
Proof.
  apply (@unique_id_same_iff_same_owner_id_and_accessor Sample.imports
           Sample.hass Sample.config_entry Sample.coordinator).
  vm_compute. reflexivity.
Defined.

(** X7. The unique id does not tell a zone from a room IQ sensor: when a
    zone and a room IQ sensor of the snapshot carry the same vendor id,
    setup creates a zone temperature sensor and a room IQ temperature
    sensor with one and the same unique id. *)
Theorem zone_and_room_iq_of_same_id_share_unique_id `{Imports}
    (hass : HomeAssistant) (config_entry : ConfigEntry)
    (c : NexiaDataUpdateCoordinator) (t1 t2 : NexiaThermostat)
    (z : ZoneState) (q : RoomIqState) :
  coordinator_of hass config_entry = Some c ->
  NoDup (get_thermostat_ids (nexia_home c)) ->
  t1 ∈ thermostats (nexia_home c) -> z ∈ zones t1 ->
  t2 ∈ thermostats (nexia_home c) -> q ∈ room_iqs t2 ->
  zs_zone_id z = qs_iq_id q ->
  exists es sz sq,
    async_setup_entry hass config_entry = Ok es
    /\ ZoneSensor sz ∈ es /\ IqSensor sq ∈ es
    /\ unique_id_of (ZoneSensor sz)
       = str_int (zs_zone_id z) +:+ "_" +:+ "get_temperature"
    /\ unique_id_of (IqSensor sq) = unique_id_of (ZoneSensor sz).
Proof.
  intros Hc Hnd Ht1 Hz Ht2 Hq Hid.
  destruct (first_by_id_elem zs_zone_id (zones t1) z Hz) as [Hz' Hzid].
  destruct (first_by_id_elem qs_iq_id (room_iqs t2) q Hq) as [Hq' Hqid].
  set (z' := first_by_id zs_zone_id (zones t1) z) in *.
  set (q' := first_by_id qs_iq_id (room_iqs t2) q) in *.
  exists (concat (map (thermostat_entities c) (thermostats (nexia_home c)))),
    (NexiaThermostatZoneSensor_init c (zone_in t1 z') "get_temperature"
       None (Some TEMPERATURE)
       (Some (Temperature (_get_temperature_unit t1)))
       (Some MEASUREMENT) None),
    (NexiaThermostatIqSensor_init c (iq_in t2 q') "get_temperature"
       None (Some TEMPERATURE)
       (Some (Temperature (_get_temperature_unit t2)))
       (Some MEASUREMENT) None).
  split; [apply async_setup_entry_distinct; assumption|].
  split; [|split; [|split]].
  - apply list_elem_of_In, in_concat.
    exists (thermostat_entities c t1).
    split; [apply in_map, list_elem_of_In, Ht1|].
    apply list_elem_of_In. unfold thermostat_entities.
    rewrite !elem_of_app. right. left.
    apply list_elem_of_In, in_concat.
    exists (zone_sensors c t1 (zone_in t1 z')). split.
    + apply in_map_iff. exists z.
      split; [reflexivity | apply list_elem_of_In, Hz].
    + left. reflexivity.
  - apply list_elem_of_In, in_concat.
    exists (thermostat_entities c t2).
    split; [apply in_map, list_elem_of_In, Ht2|].
    apply list_elem_of_In. unfold thermostat_entities.
    rewrite !elem_of_app. right. right.
    apply list_elem_of_In, in_concat.
    exists (iq_sensors c t2 (iq_in t2 q')). split.
    + apply in_map_iff. exists q.
      split; [reflexivity | apply list_elem_of_In, Hq].
    + apply list_elem_of_In. unfold iq_sensors.
      destruct (truthy (iq_get_weight _)), (truthy (iq_get_humidity _)),
        (truthy (iq_get_battery_level _));
        rewrite ?app_nil_l, ?elem_of_app, ?list_elem_of_singleton;
        tauto.
  - change (str_int (zs_zone_id z') +:+ "_" +:+ "get_temperature"
            = str_int (zs_zone_id z) +:+ "_" +:+ "get_temperature").
    rewrite Hzid. reflexivity.
  - change (str_int (qs_iq_id q') +:+ "_" +:+ "get_temperature"
            = str_int (zs_zone_id z') +:+ "_" +:+ "get_temperature").
    rewrite Hqid, Hzid, Hid. reflexivity.
Qed.

Lemma zone_and_room_iq_of_same_id_share_unique_id_witness :
  exists es sz sq,
    @async_setup_entry Sample.imports Clash.hass Sample.config_entry
    = Ok es
    /\ ZoneSensor sz ∈ es /\ IqSensor sq ∈ es
    /\ unique_id_of (ZoneSensor sz) = "5_get_temperature"
    /\ unique_id_of (IqSensor sq) = unique_id_of (ZoneSensor sz).
Proof.
  apply (@zone_and_room_iq_of_same_id_share_unique_id Sample.imports
           Clash.hass Sample.config_entry Clash.coordinator
           Clash.thermostat Clash.thermostat Clash.zone Clash.room_iq).
  - vm_compute. reflexivity.
  - compute_done.
  - left.
  - left.
  - left.
  - left.
  - reflexivity.
Defined.

(* ===================================================================== *)
(** ** Further properties: subscriptions *)
(* ===================================================================== *)

Section MoreNotifications.
Context `{Imports}.

Lemma elem_of_subscribed_thermostat (e : SensorEntity) (i : Z) :
  (KThermostat, i) ∈ subscribed e
  <-> thermostat_id (_thermostat (as_thermostat_entity e)) = i.
Proof.
  destruct e as [s|s|s]; unfold subscribed, as_thermostat_entity;
    rewrite ?elem_of_cons, elem_of_nil; split;
    try (intros [[= ->] | [[=] | []]]; reflexivity);
    try (intros [[= ->] | []]; reflexivity);
    intros <-; left; reflexivity.
Qed.

Lemma elem_of_subscribed_zone (e : SensorEntity) (i : Z) :
  (KZone, i) ∈ subscribed e
  <-> exists s, e = ZoneSensor s /\ zone_id (_zone s) = i.
Proof.
  destruct e as [s|s|s]; unfold subscribed;
    rewrite ?elem_of_cons, elem_of_nil; split.
  - intros [[=] | []].
  - intros (s' & [=] & _).
  - intros [[=] | [[= ->] | []]]. exists s. split; reflexivity.
  - intros (s' & [= <-] & <-). right. left. reflexivity.
  - intros [[=] | [[=] | []]].
  - intros (s' & [=] & _).
Qed.

Lemma elem_of_subscribed_iq (e : SensorEntity) (i : Z) :
  (KRoomIq, i) ∈ subscribed e
  <-> exists s, e = IqSensor s /\ iq_id (_iq s) = i.
Proof.
  destruct e as [s|s|s]; unfold subscribed;
    rewrite ?elem_of_cons, elem_of_nil; split.
  - intros [[=] | []].
  - intros (s' & [=] & _).
  - intros [[=] | [[=] | []]].
  - intros (s' & [=] & _).
  - intros [[=] | [[= ->] | []]]. exists s. split; reflexivity.
  - intros (s' & [= <-] & <-). right. left. reflexivity.
Qed.

(** After the entities attached themselves to an application without
    listeners, a channel reaches the entities subscribed to its kind and
    id. *)
Lemma send_iff_subscribed
    (d : gmap string (gmap string NexiaDataUpdateCoordinator))
    (es : list SensorEntity) (k : Kind) (i : Z) (r : EntityRef) :
  distinct_signals = true ->
  r ∈ async_dispatcher_send
        (snd (attach_from 0%nat es {| data := d; dispatcher := ∅ |}))
        (channel k i)
  <-> exists e, es !! r = Some e /\ (k, i) ∈ subscribed e.
Proof.
  intros Hd. rewrite attach_from_send. split.
  - intros [Hr | (j & e & [k' i'] & -> & Hl & Hki & Hch)].
    + unfold async_dispatcher_send in Hr. simpl in Hr.
      rewrite lookup_empty in Hr. inversion Hr.
    + destruct (channel_inj _ _ _ _ Hd Hch) as [Hk Hi].
      simpl in Hk, Hi. subst k' i'. exists e. split; assumption.
  - intros (e & Hl & Hki). right. exists r, e, (k, i).
    repeat split; assumption.
Qed.
End MoreNotifications.

(** X8. Every subscription that [async_added_to_hass] makes is handed
    to [async_on_remove]: after the call the entity's removal list has
    grown by the remover of the coordinator listener, which the hook of
    the base class registers first, followed by one dispatcher remover
    per channel subscribed to, in subscription order (the thermostat
    channel before the zone or room IQ channel): two handles for a
    thermostat-level entity, three for a zone or room IQ entity. The
    dispatcher has gained on each signal exactly the listeners that the
    dispatcher removers stand for. *)
Theorem async_added_to_hass_registers_every_listener `{Imports}
    (ref : EntityRef) (e : SensorEntity) (hass : HomeAssistant) :
  let handles :=
    map (fun ki => (channel ki.1 ki.2, ref)) (subscribed e) in
  let after := async_added_to_hass ref e hass in
  _on_remove (as_thermostat_entity (fst after))
  = _on_remove (as_thermostat_entity e)
    ++ CoordinatorRemover ref :: map DispatcherRemover handles
  /\ (forall signal,
         async_dispatcher_send (snd after) signal
         = async_dispatcher_send hass signal
           ++ map snd
                (List.filter (fun h => String.eqb (fst h) signal) handles))
  /\ length (_on_remove (as_thermostat_entity (fst after)))
     = (length (_on_remove (as_thermostat_entity e))
        + match e with
          | ThermostatSensor _ => 2
          | ZoneSensor _ | IqSensor _ => 3
          end)%nat.
Proof.
  cbv zeta.
  assert (Hremove :
            _on_remove (as_thermostat_entity
                          (fst (async_added_to_hass ref e hass)))
            = _on_remove (as_thermostat_entity e)
              ++ CoordinatorRemover ref
                 :: map DispatcherRemover
                      (map (fun ki => (channel ki.1 ki.2, ref))
                         (subscribed e))).
  { destruct e as [s|s|s]; unfold subscribed; simpl;
      rewrite <- ?app_assoc; reflexivity. }
  split; [exact Hremove|]. split.
  - intros signal. rewrite added_send. f_equal.
    destruct e as [s|s|s]; unfold subscribed;
      cbn [map concat List.filter fst snd];
      repeat match goal with
             | |- context [decide (?a = ?b)] =>
                 let Hne := fresh "Hne" in
                 destruct (decide (a = b)) as [->|Hne];
                 [rewrite String.eqb_refl
                 |apply String.eqb_neq in Hne; rewrite Hne]
             end; reflexivity.
  - rewrite Hremove, length_app.
    destruct e as [s|s|s]; reflexivity.
Qed.

(** X9. Let the three signal names be distinct and free of ["-"]. After
    the entities of a platform have attached themselves,
    [_signal_thermostat_update] of an entity refreshes every attached
    entity of the same thermostat, the zone and room IQ sensors
    included, and none of another thermostat; [_signal_zone_update]
    refreshes exactly the zone entities of the same zone id and
    [_signal_iq_update] exactly the room IQ entities of the same room IQ
    id. *)
Theorem thermostat_update_refreshes_its_zones_and_room_iqs `{Imports}
    (d : gmap string (gmap string NexiaDataUpdateCoordinator))
    (es : list SensorEntity) (r : EntityRef) :
  distinct_signals = true ->
  let hass :=
    snd (attach_from 0%nat es {| data := d; dispatcher := ∅ |}) in
  (forall self : NexiaThermostatEntity,
      r ∈ _signal_thermostat_update self hass
      <-> exists e,
            es !! r = Some e
            /\ thermostat_id (_thermostat (as_thermostat_entity e))
               = thermostat_id (_thermostat self))
  /\ (forall self : NexiaThermostatZoneEntity,
         r ∈ _signal_zone_update self hass
         <-> exists s,
               es !! r = Some (ZoneSensor s)
               /\ zone_id (_zone s) = zone_id (_zone self))
  /\ (forall self : NexiaThermostatIqEntity,
         r ∈ _signal_iq_update self hass
         <-> exists s,
               es !! r = Some (IqSensor s)
               /\ iq_id (_iq s) = iq_id (_iq self)).
Proof.
  intros Hd hass. split; [|split]; intros self.
  - change (_signal_thermostat_update self hass)
      with (async_dispatcher_send hass
              (channel KThermostat (thermostat_id (_thermostat self)))).
    unfold hass. rewrite (send_iff_subscribed d es _ _ r Hd).
    split; intros (e & Hl & He); exists e; split; try exact Hl;
      apply elem_of_subscribed_thermostat; exact He.
  - change (_signal_zone_update self hass)
      with (async_dispatcher_send hass
              (channel KZone (zone_id (_zone self)))).
    unfold hass. rewrite (send_iff_subscribed d es _ _ r Hd). split.
    + intros (e & Hl & He).
      apply elem_of_subscribed_zone in He as (s & -> & Hs).
      exists s. split; assumption.
    + intros (s & Hl & Hs). exists (ZoneSensor s). split; [exact Hl|].
      apply elem_of_subscribed_zone. exists s. split; [reflexivity|exact Hs].
  - change (_signal_iq_update self hass)
      with (async_dispatcher_send hass
              (channel KRoomIq (iq_id (_iq self)))).
    unfold hass. rewrite (send_iff_subscribed d es _ _ r Hd). split.
    + intros (e & Hl & He).
      apply elem_of_subscribed_iq in He as (s & -> & Hs).
      exists s. split; assumption.
    + intros (s & Hl & Hs). exists (IqSensor s). split; [exact Hl|].
      apply elem_of_subscribed_iq. exists s. split; [reflexivity|exact Hs].
Qed.

Lemma thermostat_update_refreshes_its_zones_and_room_iqs_witness :
  let hass :=
    snd (@attach_from Sample.imports 0%nat Sample.entities Sample.hass) in
  12%nat ∈ @_signal_thermostat_update Sample.imports
             (@NexiaThermostatEntity_init Sample.imports
                Sample.coordinator Sample.upstairs "1_get_system_status")
             hass.
Proof.
  apply (proj1 (@thermostat_update_refreshes_its_zones_and_room_iqs
                  Sample.imports (data Sample.hass) Sample.entities
                  12%nat eq_refl)).
  eexists. split; [vm_compute; reflexivity|]. reflexivity.
Defined.

Example sample_thermostat_update :
  let hass :=
    snd (@attach_from Sample.imports 0%nat Sample.entities Sample.hass) in
  @_signal_thermostat_update Sample.imports
    (@NexiaThermostatEntity_init Sample.imports Sample.coordinator
       Sample.upstairs "1_get_system_status") hass
  = [0; 1; 2; 3; 4; 5; 6; 7; 8; 9; 10; 11; 12; 13]%nat.
Proof. vm_compute. reflexivity. Qed.

(* ===================================================================== *)
(** ** Further properties: invariants of the created entities *)
(* ===================================================================== *)

(** X10. Every entity that setup creates holds the coordinator found in
    [hass.data], has nothing registered for removal yet, and belongs to
    a thermostat of the snapshot; the zone of a zone sensor and the room
    IQ sensor of a room IQ sensor are children of the very thermostat
    the entity keeps as [_thermostat], the one availability and the
    thermostat channel are taken from. *)
Theorem created_entities_owned_by_snapshot `{Imports}
    (hass : HomeAssistant) (config_entry : ConfigEntry)
    (c : NexiaDataUpdateCoordinator) :
  coordinator_of hass config_entry = Some c ->
  exists es,
    async_setup_entry hass config_entry = Ok es
    /\ Forall (owned_by_snapshot c) es.
Proof.
  intros Hc. apply (async_setup_entry_origin _ _ c); [exact Hc|].
  intros t e Ht He.
  destruct (thermostat_entities_origin _ _ _ He)
    as [Hin | [(st & Hst & Hin) | (st & Hst & Hin)]];
    clear He; revert e Hin; apply Forall_forall.
  - unfold system_sensors.
    destruct (has_variable_speed_compressor t),
      (has_outdoor_temperature t), (has_relative_humidity t);
      cbn [app]; forall_list; repeat split; exact Ht.
  - unfold zone_sensors. forall_list; repeat split; assumption.
  - unfold iq_sensors.
    destruct (truthy (iq_get_weight _)), (truthy (iq_get_humidity _)),
      (truthy (iq_get_battery_level _));
      cbn [app]; forall_list; repeat split; assumption.
Qed.

Lemma created_entities_owned_by_snapshot_witness :
  exists es,
    @async_setup_entry Sample.imports Sample.hass Sample.config_entry
    = Ok es
    /\ Forall (owned_by_snapshot Sample.coordinator) es.
Proof.
  apply (@created_entities_owned_by_snapshot Sample.imports Sample.hass
           Sample.config_entry Sample.coordinator).
  vm_compute. reflexivity.
Defined.

(** X11. The attributes of every sensor that setup creates are
    consistent: the four status sensors (system status, air cleaner
    mode, zone status, setpoint status) have a translation key and no
    unit, device class, state class or transform; every other sensor
    has a unit and is a measurement; a transform is configured only on
    percent sensors and is then the percentage conversion; a sensor of
    the temperature class has a temperature unit and one of the
    humidity class has percent. *)
Theorem created_sensor_attributes_consistent `{Imports}
    (hass : HomeAssistant) (config_entry : ConfigEntry)
    (c : NexiaDataUpdateCoordinator) :
  coordinator_of hass config_entry = Some c ->
  exists es,
    async_setup_entry hass config_entry = Ok es
    /\ Forall consistent_attributes es.
Proof.
  intros Hc. apply (created_Forall _ _ c); [exact Hc|..].
  - intros t. unfold system_sensors.
    destruct (has_variable_speed_compressor t),
      (has_outdoor_temperature t), (has_relative_humidity t);
      cbn [app]; forall_list; unfold consistent_attributes;
      cbn; repeat split; eauto.
  - intros t st. unfold zone_sensors.
    forall_list; unfold consistent_attributes; cbn; repeat split; eauto.
  - intros t st. unfold iq_sensors.
    destruct (truthy (iq_get_weight _)), (truthy (iq_get_humidity _)),
      (truthy (iq_get_battery_level _));
      cbn [app]; forall_list; unfold consistent_attributes;
      cbn; repeat split; eauto.
Qed.

Lemma created_sensor_attributes_consistent_witness :
  exists es,
    @async_setup_entry Sample.imports Sample.hass Sample.config_entry
    = Ok es
    /\ Forall (@consistent_attributes Sample.imports) es.
Proof.
  apply (@created_sensor_attributes_consistent Sample.imports Sample.hass
           Sample.config_entry Sample.coordinator).
  vm_compute. reflexivity.
Defined.

(* ===================================================================== *)
(** ** Further properties: device metadata *)
(* ===================================================================== *)

(** X12. The metadata of a thermostat-level entity describes the
    thermostat itself: its identifiers hold the thermostat id, its name,
    model and firmware are the thermostat's, and it has exactly these
    six fields, so no parent link and no suggested area. The overlay of
    a zone or room IQ entity adds exactly the parent link and the
    suggested area to these fields and leaves every field other than
    identifiers, name, suggested area and parent link as the thermostat
    entity has it. *)
Theorem thermostat_device_info_and_child_overlay `{Imports}
    (c : NexiaDataUpdateCoordinator) (thermostat : NexiaThermostat)
    (zone : NexiaThermostatZone) (iq : NexiaThermostatRoomIq)
    (unique_id key : string) :
  let info :=
    _attr_device_info (NexiaThermostatEntity_init c thermostat unique_id) in
  let parent_info t :=
    _attr_device_info (NexiaThermostatEntity_init c t unique_id) in
  let zone_info :=
    _attr_device_info (NexiaThermostatZoneEntity_init c zone unique_id) in
  let iq_info :=
    _attr_device_info (NexiaThermostatIqEntity_init c iq unique_id) in
  let overlaid :=
    [ ATTR_IDENTIFIERS; ATTR_NAME; ATTR_SUGGESTED_AREA; ATTR_VIA_DEVICE ] in
  (info !! "identifiers"
   = Some (DIIdentifiers {[ (DOMAIN, thermostat_id thermostat) ]})
   /\ info !! "name" = Some (DIStr (get_name thermostat))
   /\ info !! "model" = Some (DIStr (get_model thermostat))
   /\ info !! "sw_version" = Some (DIStr (get_firmware thermostat))
   /\ info !! "manufacturer" = Some (DIStr MANUFACTURER)
   /\ info !! "configuration_url"
      = Some (DIStr (root_url (nexia_home c))))
  /\ dom info
     = list_to_set [ "configuration_url"; "identifiers"; "manufacturer";
                     "model"; "name"; "sw_version" ]
  /\ info !! ATTR_VIA_DEVICE = None
  /\ info !! ATTR_SUGGESTED_AREA = None
  /\ dom zone_info = dom info ∪ {[ ATTR_SUGGESTED_AREA; ATTR_VIA_DEVICE ]}
  /\ dom iq_info = dom info ∪ {[ ATTR_SUGGESTED_AREA; ATTR_VIA_DEVICE ]}
  /\ (key ∉ overlaid ->
      zone_info !! key = parent_info (zone_thermostat zone) !! key
      /\ iq_info !! key = parent_info (iq_thermostat iq) !! key).
Proof.
  cbv zeta. split; [repeat split; reflexivity|].
  split; [reflexivity|]. split; [reflexivity|]. split; [reflexivity|].
  split; [reflexivity|]. split; [reflexivity|].
  intros Hkey.
  assert (Hnone : forall l : list (string * DeviceInfoValue),
             Forall (fun kv => kv.1 ∈
                       [ ATTR_IDENTIFIERS; ATTR_NAME; ATTR_SUGGESTED_AREA;
                         ATTR_VIA_DEVICE ]) l ->
             (list_to_map l : DeviceInfo) !! key = None).
  { intros l Hl. apply not_elem_of_list_to_map_1. intros Hin.
    apply list_elem_of_fmap in Hin as ([k v] & -> & Hkv).
    apply Hkey. exact (proj1 (Forall_forall _ _) Hl _ Hkv). }
  split.
  - unfold NexiaThermostatZoneEntity_init, device_info_ior, dict_ior.
    cbn [_attr_device_info zone_super].
    apply lookup_union_r, Hnone.
    forall_list; cbn [fst]; set_solver.
  - unfold NexiaThermostatIqEntity_init, device_info_ior, dict_ior.
    cbn [_attr_device_info iq_super].
    apply lookup_union_r, Hnone.
    forall_list; cbn [fst]; set_solver.
Qed.

Lemma thermostat_device_info_and_child_overlay_witness :
  _attr_device_info
    (@NexiaThermostatZoneEntity_init Sample.imports Sample.coordinator
       (zone_in Sample.upstairs Sample.living_room) "10_get_status")
    !! "sw_version"
  = Some (DIStr "5.9.1").
Proof.
  rewrite (proj1 (proj2 (proj2 (proj2 (proj2 (proj2 (proj2
             (@thermostat_device_info_and_child_overlay Sample.imports
                Sample.coordinator Sample.upstairs
                (zone_in Sample.upstairs Sample.living_room)
                (iq_in Sample.upstairs Sample.builtin_iq)
                "10_get_status" "sw_version"))))))
             ltac:(compute_done))).
  reflexivity.
Defined.

(* ===================================================================== *)
(** ** Further properties: unique ids are unique when the vendor's are *)
(* ===================================================================== *)

Section KeyedBlocks.
Context {A : Type} (id_of : A -> Z) (calls : A -> list string).

Lemma elem_of_keyed_blocks (l : list A) (i : Z) (c : string) :
  (i, c) ∈ keyed_blocks id_of calls l
  <-> exists x, x ∈ l /\ id_of x = i /\ c ∈ calls x.
Proof.
  unfold keyed_blocks. induction l as [|x l IH]; simpl.
  - rewrite elem_of_nil. split; [tauto|].
    intros (x & Hx & _). inversion Hx.
  - rewrite elem_of_app, IH. split.
    + intros [Hin | (y & Hy & Hid & Hc)].
      * apply list_elem_of_fmap in Hin as (c' & [= -> ->] & Hc).
        exists x. repeat split; [left | exact Hc].
      * exists y. repeat split; [right; exact Hy | exact Hid | exact Hc].
    + intros (y & Hy & <- & Hc). apply elem_of_cons in Hy as [-> | Hy].
      * left. apply list_elem_of_fmap. exists c. split; [reflexivity|exact Hc].
      * right. exists y. repeat split; assumption.
Qed.

Lemma NoDup_keyed_blocks (l : list A) :
  NoDup (map id_of l) ->
  (forall x, x ∈ l -> NoDup (calls x)) ->
  NoDup (keyed_blocks id_of calls l).
Proof.
  induction l as [|x l IH]; intros Hnd Hcalls.
  - constructor.
  - change (NoDup (map (pair (id_of x)) (calls x)
                   ++ keyed_blocks id_of calls l)).
    simpl in Hnd. apply NoDup_cons in Hnd as [Hx Hnd].
    apply NoDup_app. split; [|split].
    + apply (NoDup_fmap_2 (pair (id_of x))). apply Hcalls. left.
    + intros [i c] Hin Hin'.
      apply list_elem_of_fmap in Hin as (c' & [= -> ->] & _).
      apply elem_of_keyed_blocks in Hin' as (y & Hy & Hid & _).
      apply Hx. rewrite <- Hid. apply list_elem_of_fmap_2. exact Hy.
    + apply IH; [exact Hnd|]. intros y Hy. apply Hcalls. right. exact Hy.
Qed.

Lemma keyed_blocks_concat {B} (f : B -> list A) (l : list B) :
  concat (map (fun b => keyed_blocks id_of calls (f b)) l)
  = keyed_blocks id_of calls (concat (map f l)).
Proof.
  unfold keyed_blocks. induction l as [|b l IH]; simpl; [reflexivity|].
  rewrite IH, map_app, concat_app. reflexivity.
Qed.
End KeyedBlocks.

Lemma concat_map_app3_perm {A B} (a b d : A -> list B) (l : list A) :
  concat (map (fun x => a x ++ b x ++ d x) l)
  ≡ₚ concat (map a l) ++ concat (map b l) ++ concat (map d l).
Proof.
  induction l as [|x l IH]; simpl; [reflexivity|].
  rewrite IH. solve_Permutation.
Qed.

Lemma keyed_blocks_ext {A} (id_of : A -> Z) (calls calls' : A -> list string)
    (l : list A) :
  (forall x, x ∈ l -> calls x = calls' x) ->
  keyed_blocks id_of calls l = keyed_blocks id_of calls' l.
Proof.
  intros Hc. unfold keyed_blocks. f_equal. apply map_ext_in.
  intros x Hx. rewrite (Hc x) by apply list_elem_of_In, Hx. reflexivity.
Qed.

#[global] Instance format_unique_id_inj : Inj (=) (=) format_unique_id.
Proof.
  intros [i a] [j b] Heq. unfold format_unique_id in Heq. simpl in Heq.
  destruct (unique_id_format_inj i j a b Heq) as [-> ->]. reflexivity.
Qed.

Section UniqueIds.
Context `{Imports}.

Lemma keys_system_sensors (c : NexiaDataUpdateCoordinator)
    (t : NexiaThermostat) :
  map sensor_key (system_sensors c t)
  = map (pair (thermostat_id t)) (system_calls t).
Proof.
  unfold system_sensors, system_calls.
  destruct (has_variable_speed_compressor t),
    (has_outdoor_temperature t), (has_relative_humidity t); reflexivity.
Qed.

Lemma keys_iq_sensors (c : NexiaDataUpdateCoordinator)
    (t : NexiaThermostat) (q : RoomIqState) :
  map sensor_key (iq_sensors c t (iq_in t q))
  = map (pair (qs_iq_id q)) (iq_calls q).
Proof.
  unfold iq_sensors, iq_calls, iq_get_weight, iq_get_humidity,
    iq_get_battery_level. cbn [iq_in iq_state].
  destruct (truthy (qs_get_weight q)), (truthy (qs_get_humidity q)),
    (truthy (qs_get_battery_level q)); reflexivity.
Qed.

Lemma keys_thermostat_entities (c : NexiaDataUpdateCoordinator)
    (t : NexiaThermostat) :
  NoDup (get_room_iq_ids t) ->
  map sensor_key (thermostat_entities c t)
  = map (pair (thermostat_id t)) (system_calls t)
    ++ keyed_blocks zs_zone_id (fun _ => zone_calls) (zones t)
    ++ keyed_blocks qs_iq_id iq_calls (room_iqs t).
Proof.
  intros Hndq. unfold thermostat_entities, keyed_blocks.
  rewrite !map_app, !concat_map, !map_map, keys_system_sensors.
  f_equal. f_equal.
  - f_equal. apply map_ext_in. intros st Hst.
    apply list_elem_of_In in Hst.
    destruct (first_by_id_elem zs_zone_id (zones t) st Hst) as [_ Hid].
    rewrite <- Hid. reflexivity.
  - f_equal. apply map_ext_in. intros st Hst.
    apply list_elem_of_In in Hst.
    rewrite first_by_id_NoDup by assumption. apply keys_iq_sensors.
Qed.

Lemma system_calls_spec (t : NexiaThermostat) :
  NoDup (system_calls t)
  /\ forall call, call ∈ system_calls t -> is_system_call call = true.
Proof.
  unfold system_calls.
  destruct (has_variable_speed_compressor t),
    (has_outdoor_temperature t), (has_relative_humidity t);
    (split; [compute_done|]); intros call Hin;
    unfold is_system_call; apply bool_decide_eq_true_2;
    cbn [app] in Hin; rewrite ?elem_of_cons, ?elem_of_nil in *; tauto.
Qed.

Lemma iq_calls_spec (q : RoomIqState) :
  NoDup (iq_calls q)
  /\ forall call, call ∈ iq_calls q -> is_system_call call = false.
Proof.
  unfold iq_calls.
  destruct (truthy (qs_get_weight q)), (truthy (qs_get_humidity q)),
    (truthy (qs_get_battery_level q));
    (split; [compute_done|]); intros call Hin;
    cbn [app] in Hin; rewrite ?elem_of_cons, elem_of_nil in Hin;
    repeat destruct Hin as [Hin|Hin];
    first [contradiction | subst call; reflexivity].
Qed.

Lemma zone_calls_spec :
  NoDup zone_calls
  /\ forall call, call ∈ zone_calls -> is_system_call call = false.
Proof.
  split; [compute_done|]. intros call Hin. unfold zone_calls in Hin.
  rewrite ?elem_of_cons, elem_of_nil in Hin.
  repeat destruct Hin as [Hin|Hin];
    first [contradiction | subst call; reflexivity].
Qed.
End UniqueIds.

Lemma NoDup_concat_part {A} (ls : list (list A)) (l : list A) :
  NoDup (concat ls) -> l ∈ ls -> NoDup l.
Proof.
  induction ls as [|l' ls IH]; intros Hnd Hin; [inversion Hin|].
  simpl in Hnd. apply NoDup_app in Hnd as (Hl & _ & Hrest).
  apply elem_of_cons in Hin as [-> | Hin]; [exact Hl | exact (IH Hrest Hin)].
Qed.

(** X13. With distinct thermostat ids, and with the zone ids and room IQ
    ids of the whole snapshot pairwise distinct, the unique ids of the
    entities that setup creates are pairwise distinct. A thermostat id
    may equal a zone or room IQ id: the accessor names used on
    thermostats are used on no child. *)
Theorem unique_ids_distinct_when_vendor_ids_are `{Imports}
    (hass : HomeAssistant) (config_entry : ConfigEntry)
    (c : NexiaDataUpdateCoordinator) :
  coordinator_of hass config_entry = Some c ->
  NoDup (get_thermostat_ids (nexia_home c)) ->
  NoDup (all_zone_ids (nexia_home c) ++ all_room_iq_ids (nexia_home c)) ->
  exists es,
    async_setup_entry hass config_entry = Ok es
    /\ NoDup (map unique_id_of es).
Proof.
  intros Hc Hnd Hchildren.
  destruct (created_Forall hass config_entry c _ Hc
              (system_sensors_unique_id c)
              (fun t st => zone_sensors_unique_id c t (zone_in t st))
              (fun t st => iq_sensors_unique_id c t (iq_in t st)))
    as (es & Hes & Hall).
  exists es. split; [exact Hes|].
  rewrite (map_ext_in unique_id_of
             (fun e => format_unique_id (sensor_key e))).
  2:{ intros e He. apply list_elem_of_In in He.
      exact (proj1 (Forall_forall _ _) Hall e He). }
  rewrite <- (map_map sensor_key format_unique_id).
  apply (NoDup_fmap_2 format_unique_id).
  rewrite (async_setup_entry_distinct _ _ _ Hc Hnd) in Hes.
  injection Hes as <-.
  apply NoDup_app in Hchildren as (Hzones & Hdisjoint & Hiqs).
  set (ts := thermostats (nexia_home c)) in *.
  rewrite concat_map, map_map.
  rewrite (map_ext_in _
             (fun t =>
                map (pair (thermostat_id t)) (system_calls t)
                ++ keyed_blocks zs_zone_id (fun _ => zone_calls) (zones t)
                ++ keyed_blocks qs_iq_id iq_calls (room_iqs t))).
  2:{ intros t Ht. apply keys_thermostat_entities.
      apply (NoDup_concat_part _ _ Hiqs).
      apply list_elem_of_fmap_2, list_elem_of_In, Ht. }
  rewrite concat_map_app3_perm.
  rewrite (keyed_blocks_concat zs_zone_id (fun _ => zone_calls) zones ts),
    (keyed_blocks_concat qs_iq_id iq_calls room_iqs ts).
  change (concat
            (map (fun t => map (pair (thermostat_id t)) (system_calls t))
               ts))
    with (keyed_blocks thermostat_id system_calls ts).
  assert (Hzid : map zs_zone_id (concat (map zones ts))
                 = all_zone_ids (nexia_home c))
    by (rewrite concat_map, map_map; reflexivity).
  assert (Hqid : map qs_iq_id (concat (map room_iqs ts))
                 = all_room_iq_ids (nexia_home c))
    by (rewrite concat_map, map_map; reflexivity).
  apply NoDup_app. split; [|split; [|apply NoDup_app; split; [|split]]].
  - apply NoDup_keyed_blocks; [exact Hnd|].
    intros t _. apply system_calls_spec.
  - intros [i call] Hsys Hchild.
    apply elem_of_keyed_blocks in Hsys as (t & _ & _ & Hcall).
    apply (proj2 (system_calls_spec t)) in Hcall.
    apply elem_of_app in Hchild as [Hz | Hq].
    + apply elem_of_keyed_blocks in Hz as (z & _ & _ & Hz).
      apply (proj2 zone_calls_spec) in Hz. congruence.
    + apply elem_of_keyed_blocks in Hq as (q & _ & _ & Hq).
      apply (proj2 (iq_calls_spec q)) in Hq. congruence.
  - apply NoDup_keyed_blocks; [rewrite Hzid; exact Hzones|].
    intros z _. apply zone_calls_spec.
  - intros [i call] Hz Hq.
    apply elem_of_keyed_blocks in Hz as (z & Hz & Hzi & _).
    apply elem_of_keyed_blocks in Hq as (q & Hq & Hqi & _).
    apply (Hdisjoint i).
    + rewrite <- Hzid, <- Hzi. apply list_elem_of_fmap_2. exact Hz.
    + rewrite <- Hqid, <- Hqi. apply list_elem_of_fmap_2. exact Hq.
  - apply NoDup_keyed_blocks; [rewrite Hqid; exact Hiqs|].
    intros q _. apply iq_calls_spec.
Qed.

Lemma unique_ids_distinct_when_vendor_ids_are_witness :
  exists es,
    @async_setup_entry Sample.imports Sample.hass Sample.config_entry
    = Ok es
    /\ NoDup (map unique_id_of es).
Proof.
  apply (@unique_ids_distinct_when_vendor_ids_are Sample.imports
           Sample.hass Sample.config_entry Sample.coordinator).
  - vm_compute. reflexivity.
  - compute_done.
  - compute_done.
Defined.
